(** * csv-formatter: the inference engine of [csv_verifier.py]

    A shallow embedding of [src/csv_verifier.py] and of [format_csv] of
    [src/csv_formatter.py], followed by the properties of the verifier,
    the line classifier, the plain-text promotion and the entry points.

    Conventions of the embedding.
    - A Python [str] is a Rocq [string]; its characters are the 8-bit
      [ascii] values, read as the code points U+0000 .. U+00FF.
    - A Python [list] is a [list]; a [dict] used as a mapping is a [gmap];
      a [dict] whose iteration order decides a result ([max] over its keys)
      is an association list in insertion order; a [set] is a [gset].
    - A Python [float] is a non-negative binary64 value, kept as an exact
      dyadic number (module [Float64]); arithmetic rounds to nearest, ties
      to even, as IEEE 754 does.
    - A call that may raise returns an [outcome]; reading, parsing and
      writing files raise what the libraries they go through raise. *)

From Stdlib Require Import ZArith Ascii String List Lia Bool.
From stdpp Require Import base gmap strings list fin_maps.

Open Scope string_scope.
Open Scope nat_scope.
Open Scope list_scope.

(** ** Exceptions *)

Inductive exn : Type :=
| StopIteration        (* [next] on an exhausted iterator *)
| ValueError           (* [max] / [min] of an empty sequence *)
| TypeError            (* [csv.reader] / [csv.writer] with a delimiter that is not one character *)
| LookupError          (* [open] with an encoding that is not known *)
| OSError              (* [open] on a path that cannot be opened *)
| UnicodeDecodeError   (* bytes that the source encoding cannot decode *)
| UnicodeEncodeError   (* text that the target encoding cannot hold *)
| CsvError.            (* [_csv.Error], as for a field over the size limit *)

Inductive outcome (A : Type) : Type :=
| Returns (a : A)
| Raises (e : exn).

Arguments Returns {A} a.
Arguments Raises {A} e.

#[global] Instance outcome_ret : MRet outcome := fun A a => Returns a.

#[global] Instance outcome_bind : MBind outcome := fun A B k x =>
  match x with
  | Returns a => k a
  | Raises e => Raises e
  end.

(** ** Python text primitives *)

Module Py.

(** [c.isspace()] for a code point below 256. *)
Definition isspace (c : ascii) : bool :=
  let n := nat_of_ascii c in
  ((9 <=? n) && (n <=? 13)) || ((28 <=? n) && (n <=? 32)) || (n =? 133) || (n =? 160).

(** [c.isdigit()] for a code point below 256: the ten ASCII digits and the
    superscripts one, two and three. *)
Definition isdigit_char (c : ascii) : bool :=
  let n := nat_of_ascii c in
  ((48 <=? n) && (n <=? 57)) || (n =? 178) || (n =? 179) || (n =? 185).

(** [bool(s)]: a string is true when it is not empty. *)
Definition truthy (s : string) : bool :=
  match s with
  | EmptyString => false
  | String _ _ => true
  end.

Fixpoint lstrip (s : string) : string :=
  match s with
  | EmptyString => EmptyString
  | String c s' => if isspace c then lstrip s' else s
  end.

Fixpoint rstrip (s : string) : string :=
  match s with
  | EmptyString => EmptyString
  | String c s' =>
      match rstrip s' with
      | EmptyString => if isspace c then EmptyString else String c EmptyString
      | r => String c r
      end
  end.

(** [s.strip()] *)
Definition strip (s : string) : string := rstrip (lstrip s).

(** [s.count(c)] for a one-character [c]. *)
Fixpoint count (c : ascii) (s : string) : nat :=
  match s with
  | EmptyString => 0
  | String a s' => (if Ascii.eqb a c then 1 else 0) + count c s'
  end.

(** [c in s] for a one-character [c]. *)
Fixpoint contains (c : ascii) (s : string) : bool :=
  match s with
  | EmptyString => false
  | String a s' => Ascii.eqb a c || contains c s'
  end.

(** [p in s] for a string [p]. *)
Fixpoint contains_str (p s : string) : bool :=
  String.prefix p s ||
  match s with
  | EmptyString => false
  | String _ s' => contains_str p s'
  end.

(** [s.split(c)] for a one-character separator. *)
Fixpoint split (c : ascii) (s : string) : list string :=
  match s with
  | EmptyString => [EmptyString]
  | String a s' =>
      if Ascii.eqb a c then EmptyString :: split c s'
      else match split c s' with
           | cell :: cells => String a cell :: cells
           | [] => [String a EmptyString]
           end
  end.

(** [s.replace('.', '', 1)] *)
Fixpoint replace_first_dot (s : string) : string :=
  match s with
  | EmptyString => EmptyString
  | String a s' => if Ascii.eqb a "."%char then s' else String a (replace_first_dot s')
  end.

Fixpoint all_digits (s : string) : bool :=
  match s with
  | EmptyString => true
  | String a s' => isdigit_char a && all_digits s'
  end.

(** [s.isdigit()] *)
Definition isdigit (s : string) : bool := truthy s && all_digits s.

(** [f.readlines()] on text whose newlines are already translated: each
    line keeps its terminator. *)
Fixpoint readlines (s : string) : list string :=
  match s with
  | EmptyString => []
  | String a s' =>
      if Ascii.eqb a "010"%char then String a EmptyString :: readlines s'
      else match readlines s' with
           | l :: ls => String a l :: ls
           | [] => [String a EmptyString]
           end
  end.

(** [max(d, key=d.get)] over a dict given in insertion order: the first key
    whose value is maximal. *)
Fixpoint max_key_from {K : Type} (best : K * nat) (d : list (K * nat)) : K :=
  match d with
  | [] => fst best
  | kv :: d' => if snd best <? snd kv then max_key_from kv d' else max_key_from best d'
  end.

Definition max_key {K : Type} (d : list (K * nat)) : outcome K :=
  match d with
  | [] => Raises ValueError
  | kv :: d' => Returns (max_key_from kv d')
  end.

(** [d[k]] on such a dict, for a key that is present (0 stands for the
    [KeyError] that no call below can meet). *)
Fixpoint get (d : list (ascii * nat)) (k : ascii) : nat :=
  match d with
  | [] => 0
  | (k', v) :: d' => if Ascii.eqb k' k then v else get d' k
  end.

(** [max(l)] and [min(l)] of a list of integers. *)
Definition max_list (l : list nat) : outcome nat :=
  match l with
  | [] => Raises ValueError
  | x :: l' => Returns (foldl Nat.max x l')
  end.

Definition min_list (l : list nat) : outcome nat :=
  match l with
  | [] => Raises ValueError
  | x :: l' => Returns (foldl Nat.min x l')
  end.

(** [sum(l)] *)
Definition sum (l : list nat) : nat := foldr Nat.add 0 l.

End Py.

(** ** Binary64 arithmetic on non-negative values

    A value is [mant * 2 ^ expo].  The three operations the program uses
    are the conversion of an [int], the product of two floats and the true
    division of two [int]s; each returns the exact result rounded to 53
    significant bits, to nearest, ties to even.  Every value the program
    forms lies far inside the normal range, so neither overflow nor
    subnormals occur. *)

Module Float64.

Record t : Type := mk { mant : Z; expo : Z }.

(** [p / 2 ^ s] rounded to the nearest integer, ties to even ([1 <= s]). *)
Definition rne (p s : Z) : Z :=
  let q := (p / 2 ^ s)%Z in
  let r := (p mod 2 ^ s)%Z in
  let h := (2 ^ (s - 1))%Z in
  if (r <? h)%Z then q
  else if (h <? r)%Z then (q + 1)%Z
  else if Z.even q then q else (q + 1)%Z.

(** [p * 2 ^ e] rounded to 53 significant bits. *)
Definition round (p e : Z) : t :=
  let s := (Z.log2 p - 52)%Z in
  if (s <=? 0)%Z then mk p e else mk (rne p s) (e + s).

(** [float(n)] *)
Definition of_int (n : Z) : t := round n 0.

(** [x * y] *)
Definition mul (x y : t) : t := round (mant x * mant y) (expo x + expo y).

(** [a / b] on two [int]s, [0 <= a], [0 < b]: the quotient is taken with at
    least 55 bits and a sticky bit, then rounded. *)
Definition truediv (a b : Z) : t :=
  if (a =? 0)%Z then mk 0 0
  else
    let k := Z.max 0 (55 + Z.log2 b - Z.log2 a) in
    let n := (a * 2 ^ k)%Z in
    let q := (n / b)%Z in
    let sticky := if (n mod b =? 0)%Z then 0%Z else 1%Z in
    round (2 * q + sticky) (- k - 1).

(** The literals of the program. *)
Definition c_0_8 : t := mk 7205759403792794 (-53).
Definition c_0_7 : t := mk 6305039478318694 (-53).

(** Exact comparison of an [int] with a float, as Python performs it. *)
Definition int_gt (k : Z) (x : t) : bool :=
  if (0 <=? expo x)%Z then (mant x * 2 ^ expo x <? k)%Z
  else (mant x <? k * 2 ^ (- expo x))%Z.

Definition int_ge (k : Z) (x : t) : bool :=
  if (0 <=? expo x)%Z then (mant x * 2 ^ expo x <=? k)%Z
  else (mant x <=? k * 2 ^ (- expo x))%Z.

(** [x] is [a / b] rounded to nearest: 53 significant bits, and at most half
    a unit in the last place away from the quotient. *)
Definition nearest (x : t) (a b : Z) : Prop :=
  exists k s : Z,
    (0 <= k)%Z /\ (0 <= s)%Z /\ (expo x = s - k - 1)%Z /\
    (2 ^ 52 <= mant x <= 2 ^ 53)%Z /\
    (2 * Z.abs (mant x * 2 ^ s * b - a * 2 ^ (k + 1)) <= 2 ^ s * b)%Z.

End Float64.

(** ** The environment: files, and the libraries the program calls *)

(** A path on disk: whether it exists, and the bytes found there (the
    path of a regular file that can be read in binary mode, as
    [detect_encoding] reads it). *)
Record file : Type := mk_file {
  path : string;
  present : bool;        (* [os.path.exists(path)] *)
  raw_data : string;     (* what [open(path, 'rb').read()] returns *)
}.

(** [os.path.getsize] *)
Definition getsize (f : file) : Z := Z.of_nat (String.length (raw_data f)).

(** [infile.read(n)]: the first [n] characters. *)
Fixpoint read_prefix (n : nat) (s : string) : string :=
  match n, s with
  | S n', String a s' => String a (read_prefix n' s')
  | _, _ => EmptyString
  end.

Definition potential_delimiters : list ascii := [","; ";"; "009"; "|"]%char.

(** ** [verify_csv] *)

Module CsvReport.
Record t : Type := mk {
  file_path : string;
  file_size_bytes : Z;
  encoding : option string;
  delimiter : string;
  header_count : nat;
  headers : list string;
  row_count : nat;
  consistent_columns : bool;
  is_single_column_csv : bool;
  empty_cells : nat;
  column_data_types : gmap string string;
}.
End CsvReport.

(** Lines 63-73: the requested delimiter is kept when the sample contains
    it; otherwise the most frequent candidate replaces it, when one occurs
    at all. *)
Definition resolve_delimiter (sample delimiter : string) : outcome string :=
  if negb (Py.contains_str delimiter sample) then
    let delimiter_counts := map (fun d => (d, Py.count d sample)) potential_delimiters in
    best_delimiter ← Py.max_key delimiter_counts;
    if 0 <? Py.get delimiter_counts best_delimiter
    then mret (String best_delimiter EmptyString)
    else mret delimiter
  else mret delimiter.

(** Lines 81-83 and 89-92: a record of one cell that contains the delimiter
    is split on it. *)
Definition resplit (delimiter : ascii) (row : list string) : list string :=
  match row with
  | [cell] => if Py.contains delimiter cell then Py.split delimiter cell else row
  | _ => row
  end.

(** Line 100 *)
Definition single_content_header (headers : list string) : bool :=
  (length headers =? 1) &&
  match headers !! 0 with
  | Some h => String.eqb h "Content"
  | None => false
  end.

(** Lines 97-106 *)
Definition columns_consistent (headers : list string) (rows : list (list string)) : bool :=
  let column_counts := map length rows in
  if single_content_header headers
  then forallb (fun row => 1 <=? length row) rows
  else bool_decide (size (list_to_set column_counts : gset nat) = 1).

(** Line 109 *)
Definition count_empty_cells (rows : list (list string)) : nat :=
  length (List.filter (fun cell => negb (Py.truthy (Py.strip cell))) (concat rows)).

(** Line 114: [[row[i] for row in rows if i < len(row)]] *)
Definition column_values (rows : list (list string)) (i : nat) : list string :=
  omap (fun row : list string => row !! i) rows.

(** Line 117: [val.strip().replace('.', '', 1).isdigit()] *)
Definition looks_numeric (val : string) : bool :=
  Py.isdigit (Py.replace_first_dot (Py.strip val)).

(** Lines 114-121, for one header index. *)
Definition column_data_type (rows : list (list string)) (i : nat) : string :=
  let values := column_values rows i in
  let numeric_count := length (List.filter looks_numeric values) in
  if Float64.int_gt (Z.of_nat numeric_count)
       (Float64.mul Float64.c_0_8 (Float64.of_int (Z.of_nat (length values))))
  then "numeric"
  else "string".

(** [dict(pairs)]: a later pair replaces an earlier one with the same key. *)
Definition dict_of (pairs : list (string * string)) : gmap string string :=
  foldl (fun m kv => <[kv.1 := kv.2]> m) ∅ pairs.

(** Lines 77-138, on the records that [csv.reader] yields for the resolved
    one-character delimiter. *)
Definition verify_parsed (file_path : string) (file_size : Z) (encoding : option string)
    (delimiter : ascii) (reader : list (list string)) : outcome CsvReport.t :=
  match reader with
  | [] => Raises StopIteration                       (* [next(reader)] *)
  | first :: rest =>
      let headers := resplit delimiter first in
      let rows := map (resplit delimiter) rest in
      let row_count := length rows in
      let column_data_types := map (column_data_type rows) (seq 0 (length headers)) in
      mret {| CsvReport.file_path := file_path;
              CsvReport.file_size_bytes := file_size;
              CsvReport.encoding := encoding;
              CsvReport.delimiter := String delimiter EmptyString;
              CsvReport.header_count := length headers;
              CsvReport.headers := headers;
              CsvReport.row_count := row_count;
              CsvReport.consistent_columns := columns_consistent headers rows;
              CsvReport.is_single_column_csv := single_content_header headers;
              CsvReport.empty_cells := count_empty_cells rows;
              CsvReport.column_data_types := dict_of (zip headers column_data_types) |}
  end.

(** ** [verify_txt] *)

Module TxtReport.
Record t : Type := mk {
  file_path : string;
  file_size_bytes : Z;
  encoding : option string;
  line_count : nat;
  empty_lines : nat;
  avg_line_length : Float64.t;
  consistent_line_length : bool;
  potential_csv : bool;
  potential_delimiter : option ascii;
  csv_confidence : Float64.t;
  is_large_file : bool;
}.
End TxtReport.

Definition large_file_threshold : Z := 10 * 1024 * 1024.

(** Lines 237-261: the first 100 lines and, past 200 lines, 100 lines from
    the middle. *)
Definition sample_lines (all_lines : list string) : list string :=
  let first_lines := take 100 all_lines in
  let line_count := length all_lines in
  let middle_lines :=
    if 200 <? line_count
    then let middle_start := Nat.max 100 (line_count / 2 - 50) in
         take 100 (drop middle_start all_lines)
    else [] in
  first_lines ++ middle_lines.

(** Line 288: a later line matches when it is not blank and its delimiter
    count is within 2 of the header's. *)
Definition line_matches (d : ascii) (expected_count : nat) (line : string) : bool :=
  Py.truthy (Py.strip line) &&
  (Z.abs (Z.of_nat (Py.count d line) - Z.of_nat expected_count) <=? 2)%Z.

(** The three variables that lines 275-293 set. *)
Module Guess.
Record t : Type := mk {
  is_potential_csv : bool;
  best_delimiter : ascii;
  csv_confidence : Float64.t;
}.
End Guess.

(** Lines 279-293 *)
Definition detect_csv (lines : list string) (guess : Guess.t) : outcome Guess.t :=
  match lines with
  | [] => mret guess
  | first :: rest =>
      if existsb (fun d => Py.contains d first) potential_delimiters then
        let header_delimiters := map (fun d => (d, Py.count d first)) potential_delimiters in
        best_header_delimiter ← Py.max_key header_delimiters;
        if 0 <? Py.get header_delimiters best_header_delimiter then
          let expected_count := Py.count best_header_delimiter first in
          let matching_lines :=
            length (List.filter (line_matches best_header_delimiter expected_count) rest) in
          if Float64.int_ge (Z.of_nat matching_lines)
               (Float64.mul Float64.c_0_7 (Float64.of_int (Z.of_nat (length lines - 1))))
          then mret (Guess.mk true best_header_delimiter
                       (Float64.truediv (Z.of_nat matching_lines)
                          (Z.of_nat (Nat.max 1 (length lines - 1)))))
          else mret guess
        else mret guess
      else mret guess
  end.

(** Lines 266-317, on the lines kept for inspection. *)
Definition classify (file_path : string) (file_size : Z) (encoding : option string)
    (is_large_file : bool) (line_count : nat) (lines : list string) : outcome TxtReport.t :=
  let empty_lines := length (List.filter (fun line => negb (Py.truthy (Py.strip line))) lines) in
  let delimiter_counts :=
    map (fun d => (d, Py.sum (map (Py.count d) lines))) potential_delimiters in
  best_delimiter ← Py.max_key delimiter_counts;
  guess ← detect_csv lines (Guess.mk false best_delimiter (Float64.mk 0 0));
  let avg_line_length :=
    Float64.truediv (Z.of_nat (Py.sum (map String.length lines)))
      (Z.of_nat (Nat.max 1 (length lines))) in
  let line_lengths := map String.length lines in
  longest ← Py.max_list line_lengths;
  shortest ← Py.min_list line_lengths;
  mret {| TxtReport.file_path := file_path;
          TxtReport.file_size_bytes := file_size;
          TxtReport.encoding := encoding;
          TxtReport.line_count := line_count;
          TxtReport.empty_lines := empty_lines;
          TxtReport.avg_line_length := avg_line_length;
          TxtReport.consistent_line_length := longest - shortest <? 10;
          TxtReport.potential_csv := Guess.is_potential_csv guess;
          TxtReport.potential_delimiter :=
            if Guess.is_potential_csv guess then Some (Guess.best_delimiter guess) else None;
          TxtReport.csv_confidence :=
            if Guess.is_potential_csv guess then Guess.csv_confidence guess else Float64.mk 0 0;
          TxtReport.is_large_file := is_large_file |}.

(** ** [csv.writer], with the default dialect but for the delimiter

    [QUOTE_MINIMAL]: a field is quoted when it holds the delimiter, the
    quote character or a character of the line terminator; a quote inside
    a quoted field is doubled; a record made of one empty field is written
    as a quoted empty field; every record ends with carriage return and
    line feed. *)

Module CsvWriter.

Definition quotechar : ascii := "034"%char.
Definition lineterminator : string := String "013"%char (String "010"%char EmptyString).

Definition special (delimiter c : ascii) : bool :=
  Ascii.eqb c delimiter || Ascii.eqb c quotechar || Py.contains c lineterminator.

Fixpoint needs_quotes (delimiter : ascii) (field : string) : bool :=
  match field with
  | EmptyString => false
  | String c field' => special delimiter c || needs_quotes delimiter field'
  end.

Fixpoint double_quotes (field : string) : string :=
  match field with
  | EmptyString => EmptyString
  | String c field' =>
      if Ascii.eqb c quotechar
      then String quotechar (String c (double_quotes field'))
      else String c (double_quotes field')
  end.

Definition write_field (delimiter : ascii) (field : string) : string :=
  if needs_quotes delimiter field
  then String quotechar (double_quotes field +:+ String quotechar EmptyString)
  else field.

Fixpoint join (delimiter : ascii) (fields : list string) : string :=
  match fields with
  | [] => EmptyString
  | [f] => f
  | f :: fields' => f +:+ String delimiter (join delimiter fields')
  end.

Definition writerow (delimiter : ascii) (row : list string) : string :=
  let record := join delimiter (map (write_field delimiter) row) in
  let record :=
    match row, record with
    | _ :: _, EmptyString => String quotechar (String quotechar EmptyString)
    | _, _ => record
    end in
  record +:+ lineterminator.

Definition writerows (delimiter : ascii) (rows : list (list string)) : string :=
  foldr (fun row out => writerow delimiter row +:+ out) EmptyString rows.

End CsvWriter.

(** [csv.reader(..., delimiter=d)] and [csv.writer(..., delimiter=d)] accept
    a delimiter of exactly one character. *)
Definition one_character (delimiter : string) : outcome ascii :=
  match delimiter with
  | String d EmptyString => mret d
  | _ => Raises TypeError
  end.

(** ** [transform_file]: promotion of plain text *)

(** Lines 461-468, one iteration. *)
Definition parse_line (csv_delimiter : ascii) (state : list (list string) * nat)
    (line : string) : list (list string) * nat :=
  let '(csv_rows, max_columns) := state in
  if Py.contains csv_delimiter line then
    let row := Py.split csv_delimiter (Py.strip line) in
    (csv_rows ++ [row], Nat.max max_columns (length row))
  else
    (csv_rows ++ [[Py.strip line]], Nat.max max_columns 1).

(** Lines 472-473: [n] turns of the loop that appends an empty cell. *)
Fixpoint append_empty (n : nat) (row : list string) : list string :=
  match n with
  | 0 => row
  | S n' => append_empty n' (row ++ [EmptyString])
  end.

Definition pad_row (max_columns : nat) (row : list string) : list string :=
  append_empty (max_columns - length row) row.

(** Lines 458-473: the rows handed to the writer, and [max_columns]. *)
Definition promote (csv_delimiter : ascii) (lines : list string) : list (list string) * nat :=
  let '(csv_rows, max_columns) := foldl (parse_line csv_delimiter) ([], 0) lines in
  (map (pad_row max_columns) csv_rows, max_columns).

(** Lines 479-482 *)
Definition write_table (delimiter : ascii) (csv_rows : list (list string)) : string :=
  match csv_rows with
  | [] => EmptyString
  | header :: data => CsvWriter.writerow delimiter header +:+ CsvWriter.writerows delimiter data
  end.

(** Lines 488-498: the single-column table with the fixed header. *)
Definition write_single_column (delimiter : ascii) (lines : list string) : string :=
  let lines := map Py.strip lines in
  CsvWriter.writerow delimiter ["Content"] +:+
  CsvWriter.writerows delimiter (map (fun line => [line]) (List.filter Py.truthy lines)).

(** What [transform_file] leaves in the output file. *)
Record written : Type := mk_written {
  out_encoding : string;
  out_text : string;
}.

Definition tabular_ext (ext : string) : bool :=
  String.eqb ext ".csv" || String.eqb ext ".tsv".

Definition text_ext (ext : string) : bool :=
  String.eqb ext ".txt" || String.eqb ext EmptyString.

(** ** Reading and writing

    [chardet.detect], the codecs behind [open(..., encoding=...)] and
    [csv.reader] are not part of the repository; the entry points take
    them as parameters.  Each of them can fail, and a text file is decoded
    piece by piece as it is read, so that a part that cannot be decoded
    raises only when the reading reaches it. *)

(** What opening a file in text mode under an encoding and reading it
    gives. *)
Inductive decoding : Type :=
| OpenFails (e : exn)                     (* [open] raises *)
| FailsEarly (e : exn)                    (* the first [read(4096)] raises *)
| FailsLate (sample : string) (e : exn)   (* [read(4096)] gives [sample]; reading on raises *)
| Decoded (text : string).                (* the whole file decodes (newlines translated) *)

(** [open(path, 'r', encoding=...)] *)
Definition open_for_reading (source : decoding) : outcome unit :=
  match source with
  | OpenFails e => Raises e
  | _ => mret tt
  end.

(** [open], then [infile.read(4096)] *)
Definition read_sample (source : decoding) : outcome string :=
  match source with
  | OpenFails e | FailsEarly e => Raises e
  | FailsLate sample _ => mret sample
  | Decoded text => mret (read_prefix 4096 text)
  end.

(** [open], then a reading of the whole file: [infile.read()],
    [infile.readlines()], or an iteration to the end. *)
Definition read_all (source : decoding) : outcome string :=
  match source with
  | OpenFails e | FailsEarly e | FailsLate _ e => Raises e
  | Decoded text => mret text
  end.

(** What iterating a [csv.reader] to the end gives: the records it
    yields, and the exception that ends the iteration when one does
    (from the decoding or from the parser). *)
Record record_stream : Type := mk_stream {
  records : list (list string);
  ending : option exn;
}.

(** [next(reader)] followed by the loop over the remaining records. *)
Definition read_records (stream : record_stream) : outcome (list (list string)) :=
  match ending stream with
  | Some e => Raises e
  | None => mret (records stream)
  end.

(** A check that either passes or raises. *)
Definition check (failure : option exn) : outcome unit :=
  match failure with
  | Some e => Raises e
  | None => mret tt
  end.

(** ** The entry points, over the libraries they call *)

Section EntryPoints.

(** [chardet.detect(raw_data)['encoding']] *)
Variable chardet_detect : string -> option string.

(** Reading the bytes in text mode under an encoding. *)
Variable open_text : option string -> string -> decoding.

(** What [csv.reader] yields from the bytes read under an encoding, for a
    delimiter: the records, and the exception that ends the iteration
    when the bytes cannot be decoded or parsed to the end. *)
Variable csv_reader : option string -> string -> ascii -> record_stream.

(** [open(output_file, 'w', encoding=...)]: the exception it raises, if
    any. *)
Variable open_output : string -> option exn.

(** Writing a text under an encoding: the exception it raises, if any. *)
Variable encode : string -> string -> option exn.

(** Lines 14-27 (and [csv_formatter.py], lines 13-26). *)
Definition detect_encoding (f : file) : option string :=
  chardet_detect (raw_data f).

(** Lines 30-138 *)
Definition verify_csv (f : file) (delimiter : string) : outcome (option CsvReport.t) :=
  if negb (present f) then mret None
  else
    let file_size := getsize f in
    let encoding := detect_encoding f in
    sample ← read_sample (open_text encoding (raw_data f));
    delimiter ← resolve_delimiter sample delimiter;
    d ← one_character delimiter;
    reader ← read_records (csv_reader encoding (raw_data f) d);
    results ← verify_parsed (path f) file_size encoding d reader;
    mret (Some results).

(** Lines 204-317 *)
Definition verify_txt (f : file) : outcome (option TxtReport.t) :=
  if negb (present f) then mret None
  else
    let file_size := getsize f in
    let is_large_file := (large_file_threshold <? file_size)%Z in
    let encoding := detect_encoding f in
    text ← read_all (open_text encoding (raw_data f));
    let all_lines := Py.readlines text in
    let lines := if is_large_file then sample_lines all_lines else all_lines in
    let line_count := length all_lines in
    results ← classify (path f) file_size encoding is_large_file line_count lines;
    mret (Some results).

(** The [with open(output_file, 'w', ...)] blocks once the file is open:
    the text handed to the writer is left in the file, unless the target
    encoding cannot hold it. *)
Definition write_text (target_encoding text : string) : outcome (option written) :=
  _ ← check (encode target_encoding text);
  mret (Some (mk_written target_encoding text)).

(** Lines 388-511.  [file_ext] and [output_ext] are the lower-cased
    extensions of the two paths; the result is what the output file
    holds, or [None] when nothing is written. *)
Definition transform_file (input : file) (file_ext output_ext : string)
    (target_encoding delimiter : string) : outcome (option written) :=
  if negb (present input) then mret None
  else
    let source_encoding := detect_encoding input in
    let source := open_text source_encoding (raw_data input) in
    if tabular_ext file_ext then
      _ ← open_for_reading source;
      delimiter ←
        (if String.eqb delimiter "auto" then
           sample ← read_sample source;
           let delimiter_counts :=
             map (fun d => (d, Py.count d sample)) potential_delimiters in
           best ← Py.max_key delimiter_counts;
           mret (String best EmptyString)
         else mret delimiter);
      d ← one_character delimiter;
      reader ← read_records (csv_reader source_encoding (raw_data input) d);
      match reader with
      | [] => Raises StopIteration
      | headers :: rows =>
          _ ← check (open_output target_encoding);
          write_text target_encoding
            (CsvWriter.writerow d headers +:+ CsvWriter.writerows d rows)
      end
    else if text_ext file_ext then
      content ← read_all source;
      if tabular_ext output_ext then
        results ← verify_txt input;
        match results with
        | Some results =>
            if TxtReport.potential_csv results then
              match TxtReport.potential_delimiter results with
              | Some csv_delimiter =>
                  let lines := Py.readlines content in
                  let '(csv_rows, max_columns) := promote csv_delimiter lines in
                  _ ← check (open_output target_encoding);
                  d ← one_character delimiter;
                  write_text target_encoding (write_table d csv_rows)
              | None => Raises TypeError
              end
            else
              let lines := Py.readlines content in
              _ ← check (open_output target_encoding);
              d ← one_character delimiter;
              write_text target_encoding (write_single_column d lines)
        | None =>
            let lines := Py.readlines content in
            _ ← check (open_output target_encoding);
            d ← one_character delimiter;
            write_text target_encoding (write_single_column d lines)
        end
      else
        _ ← check (open_output target_encoding);
        write_text target_encoding content
    else mret None.

End EntryPoints.

(** ** Notions taken from the specification's wording *)

(** Section 4.3, step 3: a value that "parses as a non-negative decimal
    number (digits with at most one decimal point)".  The digits are the
    ten decimal digits; there is at most one point among them and at least
    one digit; white space around the number is set aside, as a number
    parser does. *)




Fixpoint every (P : ascii -> Prop) (s : string) : Prop :=
  match s with
  | EmptyString => True
  | String c s' => P c /\ every P s'
  end.




(** Claim C10 speaks of the written output's cell separator.  A table
    written with a separator, in the plain case where no cell needs
    quoting: the cells of a record in order with the separator between
    them, every record followed by carriage return and line feed. *)

Definition plain_cell (separator : ascii) (cell : string) : Prop :=
  every (fun c => c <> separator /\ c <> "034"%char /\
                  c <> "013"%char /\ c <> "010"%char) cell.

Definition separated_text (separator : ascii) (rows : list (list string)) : string :=
  String.concat EmptyString
    (map (fun row =>
            String.concat (String separator EmptyString) row +:+
            String "013"%char (String "010"%char EmptyString))
         rows).

(** The cells one line gives when split for promotion (lines 462-467). *)
Definition line_cells (csv_delimiter : ascii) (line : string) : list string :=
  if Py.contains csv_delimiter line
  then Py.split csv_delimiter (Py.strip line)
  else [Py.strip line].

(** ** [csv_formatter.py]: [format_csv] *)

(** [format_csv] does not test that its input exists: on a missing file
    the first [open] raises. *)
Inductive format_outcome : Type :=
| FileNotFoundError
| Formatted (result : outcome written).

Section Formatter.

Variable chardet_detect : string -> option string.
Variable open_text : option string -> string -> decoding.
Variable csv_reader : option string -> string -> ascii -> record_stream.
Variable open_output : string -> option exn.
Variable encode : string -> string -> option exn.

(** [csv_formatter.py], lines 29-61.  A transformation is a function from
    a row to a row; [None] is the default argument. *)
Definition format_csv (input : file) (encoding delimiter : string)
    (transformations : option (list string -> list string)) : format_outcome :=
  if negb (present input) then FileNotFoundError
  else
    let source_encoding := detect_encoding chardet_detect input in
    Formatted
      (_ ← open_for_reading (open_text source_encoding (raw_data input));
       d ← one_character delimiter;
       reader ← read_records (csv_reader source_encoding (raw_data input) d);
       match reader with
       | [] => Raises StopIteration
       | headers :: rows =>
           let rows :=
             match transformations with
             | Some f => map f rows
             | None => rows
             end in
           _ ← check (open_output encoding);
           _ ← check (encode encoding
                        (CsvWriter.writerow d headers +:+ CsvWriter.writerows d rows));
           mret (mk_written encoding
                   (CsvWriter.writerow d headers +:+ CsvWriter.writerows d rows))
       end).

End Formatter.

(** ** [print_verification_results]: the structure assessment

    The text printed about the structure, one constructor for each [print]
    call of lines 151-156 and 164-174 (the marks and the wording are left
    to the caller's terminal). *)

Inductive printed : Type :=
| FormatSingleColumn                  (* line 153 *)
| ColumnConsistency (ok : bool)       (* lines 154 and 156 *)
| SingleColumnCorrect                 (* line 166 *)
| StructureCorrect                    (* line 168 *)
| StructureHasIssues                  (* line 170 *)
| InconsistentColumns                 (* line 172 *)
| ContainsEmptyCells (n : nat).       (* line 174 *)

(** Lines 151-156 *)
Definition print_consistency (results : CsvReport.t) : list printed :=
  if CsvReport.is_single_column_csv results
  then [FormatSingleColumn; ColumnConsistency true]
  else [ColumnConsistency (CsvReport.consistent_columns results)].

(** Lines 164-174 *)
Definition print_assessment (results : CsvReport.t) : list printed :=
  if CsvReport.is_single_column_csv results then [SingleColumnCorrect]
  else if CsvReport.consistent_columns results && (CsvReport.empty_cells results =? 0)
  then [StructureCorrect]
  else
    StructureHasIssues ::
    (if negb (CsvReport.consistent_columns results) then [InconsistentColumns] else []) ++
    (if 0 <? CsvReport.empty_cells results
     then [ContainsEmptyCells (CsvReport.empty_cells results)] else []).

(** * Properties *)

(** ** Rounding *)

Module Float64Facts.
Import Float64.
Local Open Scope Z_scope.

Lemma rne_cases (p s : Z) :
  0 <= p -> 1 <= s ->
  exists q r, p = q * 2 ^ s + r /\ 0 <= r < 2 ^ s /\
    ((rne p s = q /\ 2 * r <= 2 ^ s) \/ (rne p s = q + 1 /\ 2 ^ s <= 2 * r)).
Proof.
  intros Hp Hs.
  assert (Hpow : 0 < 2 ^ s) by (apply Z.pow_pos_nonneg; lia).
  assert (Hhalf : 2 ^ s = 2 * 2 ^ (s - 1)).
  { replace s with (Z.succ (s - 1)) at 1 by lia. rewrite Z.pow_succ_r by lia. reflexivity. }
  exists (p / 2 ^ s), (p mod 2 ^ s).
  pose proof (Z.div_mod p (2 ^ s) ltac:(lia)) as Hdm.
  pose proof (Z.mod_pos_bound p (2 ^ s) Hpow) as Hr.
  split; [lia|]. split; [lia|].
  unfold rne.
  destruct (Z.ltb_spec (p mod 2 ^ s) (2 ^ (s - 1))); [left; lia|].
  destruct (Z.ltb_spec (2 ^ (s - 1)) (p mod 2 ^ s)); [right; lia|].
  destruct (Z.even (p / 2 ^ s)); [left|right]; lia.
Qed.

Lemma round_small (p e : Z) : 0 <= p < 2 ^ 53 -> round p e = mk p e.
Proof.
  intros Hp. unfold round.
  destruct (Z.leb_spec (Z.log2 p - 52) 0) as [|H]; [reflexivity|].
  exfalso.
  assert (0 < p) by (destruct (Z.eq_dec p 0); [subst; simpl in H; lia | lia]).
  pose proof (Z.log2_lt_pow2 p 53 ltac:(lia)) as [Hl _].
  specialize (Hl ltac:(lia)). lia.
Qed.

Lemma of_int_small (n : Z) : 0 <= n < 2 ^ 53 -> of_int n = mk n 0.
Proof. apply round_small. Qed.

(** Shape of a product that needs rounding. *)
Lemma round_big (p e : Z) :
  2 ^ 53 <= p < 2 ^ 106 ->
  exists s T U q r,
    1 <= s <= 53 /\ T = 2 ^ s /\ U = 2 ^ (53 - s) /\ T * U = 2 ^ 53 /\ 0 < T /\ 0 < U /\
    T * 2 ^ 52 <= p /\ p = q * T + r /\ 0 <= r < T /\
    ((round p e = mk q (e + s) /\ 2 * r <= T) \/ (round p e = mk (q + 1) (e + s) /\ T <= 2 * r)).
Proof.
  intros Hp.
  pose proof (Z.log2_spec p ltac:(lia)) as [Hlo Hhi].
  assert (H53 : 53 <= Z.log2 p) by (apply Z.log2_le_pow2; lia).
  assert (H106 : Z.log2 p < 106) by (apply Z.log2_lt_pow2; lia).
  set (s := Z.log2 p - 52) in *.
  destruct (rne_cases p s ltac:(lia) ltac:(lia)) as (q & r & Hq & Hr & Hc).
  exists s, (2 ^ s), (2 ^ (53 - s)), q, r.
  assert (0 < 2 ^ s) by (apply Z.pow_pos_nonneg; lia).
  assert (0 < 2 ^ (53 - s)) by (apply Z.pow_pos_nonneg; lia).
  split; [lia|]. split; [reflexivity|]. split; [reflexivity|].
  split. { rewrite <- Z.pow_add_r by lia. f_equal. lia. }
  split; [lia|]. split; [lia|].
  split. { rewrite <- Z.pow_add_r by lia. replace (s + 52) with (Z.log2 p) by lia. exact Hlo. }
  split; [lia|]. split; [lia|].
  unfold round. fold s.
  destruct (Z.leb_spec s 0); [lia|].
  destruct Hc as [[-> ?]|[-> ?]]; [left|right]; split; auto.
Qed.


Lemma int_ge_0_7 (k n : Z) :
  0 <= k -> 0 <= n < 2 ^ 49 ->
  int_ge k (mul c_0_7 (of_int n)) = (7 * n <=? 10 * k).
Proof.
  intros Hk Hn.
  rewrite of_int_small by lia.
  unfold mul, c_0_7; cbn [mant expo].
  set (p := 6305039478318694 * n).
  replace (-53 + 0) with (-53) by lia.
  destruct (Z_lt_le_dec p (2 ^ 53)) as [Hsmall|Hbig].
  - rewrite round_small by lia.
    unfold int_ge; cbn [mant expo].
    change (0 <=? -53) with false. cbn iota. change (- -53) with 53.
    destruct (Z.leb_spec p (k * 2 ^ 53)), (Z.leb_spec (7 * n) (10 * k)); try reflexivity; lia.
  - destruct (round_big p (-53) ltac:(lia))
      as (s & T & U & q & r & Hs & HT & HU & HTU & HT0 & HU0 & Hlow & Hp & Hr & Hc).
    assert (HUe : 2 ^ (- (-53 + s)) = U) by (subst U; f_equal; lia).
    assert (Hs53 : s < 53).
    { destruct (Z_lt_le_dec s 53); [assumption|]. assert (s = 53) by lia. subst s.
      change (2 ^ 53) with 9007199254740992 in *. change (2 ^ 52) with 4503599627370496 in *. lia. }
    assert (Hneg : (0 <=? -53 + s) = false) by (apply Z.leb_gt; lia).
    assert (HD : T * U = 9007199254740992) by exact HTU.
    change (2 ^ 52) with 4503599627370496 in Hlow.
    destruct Hc as [[-> Hh]|[-> Hh]]; unfold int_ge; cbn [mant expo]; rewrite Hneg, HUe.
    + destruct (Z.leb_spec q (k * U)), (Z.leb_spec (7 * n) (10 * k)); try reflexivity; exfalso.
      * assert (q * T <= k * U * T) by (apply Z.mul_le_mono_nonneg_r; lia).
        nia.
      * assert (k * U + 1 <= q) by lia.
        assert ((k * U + 1) * T <= q * T) by (apply Z.mul_le_mono_nonneg_r; lia).
        nia.
    + destruct (Z.leb_spec (q + 1) (k * U)), (Z.leb_spec (7 * n) (10 * k)); try reflexivity; exfalso.
      * assert ((q + 1) * T <= k * U * T) by (apply Z.mul_le_mono_nonneg_r; lia).
        nia.
      * assert (k * U <= q) by lia.
        assert (k * U * T <= q * T) by (apply Z.mul_le_mono_nonneg_r; lia).
        nia.
Qed.

Lemma round_shape (p e : Z) :
  2 ^ 53 <= p ->
  exists s T q r,
    1 <= s /\ s = Z.log2 p - 52 /\ T = 2 ^ s /\ 0 < T /\
    T * 2 ^ 52 <= p < T * 2 ^ 53 /\ p = q * T + r /\ 0 <= r < T /\
    ((round p e = mk q (e + s) /\ 2 * r <= T) \/
     (round p e = mk (q + 1) (e + s) /\ T <= 2 * r)).
Proof.
  intros Hp.
  assert (Hp0 : 0 < p) by (change (2 ^ 53) with 9007199254740992 in Hp; lia).
  pose proof (Z.log2_spec p Hp0) as [Hlo Hhi].
  assert (H53 : 53 <= Z.log2 p) by (apply Z.log2_le_pow2; lia).
  set (s := Z.log2 p - 52) in *.
  destruct (rne_cases p s ltac:(lia) ltac:(lia)) as (q & r & Hq & Hr & Hc).
  exists s, (2 ^ s), q, r.
  assert (0 < 2 ^ s) by (apply Z.pow_pos_nonneg; lia).
  split; [lia|]. split; [reflexivity|]. split; [reflexivity|]. split; [lia|].
  split.
  { rewrite <- !Z.pow_add_r by lia.
    replace (s + 52) with (Z.log2 p) by lia.
    replace (s + 53) with (Z.succ (Z.log2 p)) by lia. lia. }
  split; [lia|]. split; [lia|].
  unfold round. fold s.
  destruct (Z.leb_spec s 0); [lia|].
  destruct Hc as [[-> ?]|[-> ?]]; [left|right]; split; auto.
Qed.

(** The quotient of two positive integers is rounded to nearest: the
    result has 53 significant bits and differs from [a / b] by at most
    half a unit in its last place. *)
Lemma truediv_nearest (a b : Z) :
  0 < a -> 0 < b -> nearest (truediv a b) a b.
Proof.
  intros Ha Hb. unfold nearest, truediv.
  destruct (Z.eqb_spec a 0) as [|_]; [lia|].
  set (k := Z.max 0 (55 + Z.log2 b - Z.log2 a)).
  assert (Hk : 0 <= k) by lia.
  set (n := a * 2 ^ k).
  pose proof (Z.log2_spec a Ha) as [Halo Hahi].
  pose proof (Z.log2_spec b Hb) as [Hblo Hbhi].
  pose proof (Z.log2_nonneg a). pose proof (Z.log2_nonneg b).
  assert (Hk0 : 0 < 2 ^ k) by (apply Z.pow_pos_nonneg; lia).
  assert (Hn : b * 2 ^ 54 <= n).
  { subst n.
    assert (2 ^ (55 + Z.log2 b) <= 2 ^ (Z.log2 a + k)) by (apply Z.pow_le_mono_r; lia).
    rewrite Z.pow_add_r in H1 by lia. rewrite (Z.pow_add_r 2 (Z.log2 a) k) in H1 by lia.
    rewrite Z.pow_succ_r in Hbhi by lia.
    change (2 ^ 55) with (2 * 2 ^ 54) in H1.
    assert (2 ^ Z.log2 a * 2 ^ k <= a * 2 ^ k) by (apply Z.mul_le_mono_nonneg_r; lia).
    assert (0 < 2 ^ 54) by reflexivity.
    nia. }
  pose proof (Z.div_mod n b ltac:(lia)) as Hdm.
  pose proof (Z.mod_pos_bound n b Hb) as Hrho.
  set (q := n / b) in *. set (rho := n mod b) in *.
  assert (Hq : 2 ^ 54 <= q).
  { assert (0 < 2 ^ 54) by reflexivity. nia. }
  set (sticky := if rho =? 0 then 0 else 1).
  assert (Hst : (sticky = 0 /\ rho = 0) \/ (sticky = 1 /\ 0 < rho)).
  { subst sticky. destruct (Z.eqb_spec rho 0); [left | right]; lia. }
  assert (HP : 2 ^ 55 <= 2 * q + sticky).
  { change (2 ^ 55) with (2 * 2 ^ 54). lia. }
  destruct (round_shape (2 * q + sticky) (- k - 1))
    as (s & T & q' & r & Hs & Hsdef & HT & HT0 & Hrange & HPq & Hr & Hc).
  { change (2 ^ 53) with 9007199254740992. change (2 ^ 55) with 36028797018963968 in HP. lia. }
  assert (Hs3 : 3 <= s).
  { assert (55 <= Z.log2 (2 * q + sticky)) by (apply Z.log2_le_pow2; lia). lia. }
  assert (HT4 : exists H', T = 4 * H' /\ 0 < H').
  { exists (2 ^ (s - 2)). split; [|apply Z.pow_pos_nonneg; lia].
    subst T. replace s with (2 + (s - 2)) at 1 by lia. now rewrite Z.pow_add_r by lia. }
  destruct HT4 as (H' & HT4 & HH').
  assert (Hk1 : a * 2 ^ (k + 1) = 2 * n).
  { subst n. rewrite Z.pow_add_r by lia. change (2 ^ 1) with 2. lia. }
  exists k, s. rewrite Hk1, <- HT.
  change (2 ^ 52) with 4503599627370496 in *. change (2 ^ 53) with 9007199254740992 in *.
  destruct Hc as [[-> Hh]|[-> Hh]]; cbn [mant expo];
    (split; [lia|]); (split; [lia|]); (split; [lia|]); (split; [nia|]).
  - destruct Hst as [[-> ->]|[-> Hrho0]].
    + apply Z.abs_le. nia.
    + assert (2 * r + 2 <= T) by lia.
      apply Z.abs_le. nia.
  - destruct Hst as [[-> ->]|[-> Hrho0]].
    + apply Z.abs_le. nia.
    + assert (T + 2 <= 2 * r) by lia.
      apply Z.abs_le. nia.
Qed.

End Float64Facts.

(** ** The verifier *)

Section VerifierFacts.

Variables (file_path : string) (file_size : Z) (encoding : option string).
Variable delimiter : ascii.

Lemma verify_parsed_returns (first : list string) (rest : list (list string)) :
  exists r,
    verify_parsed file_path file_size encoding delimiter (first :: rest) = Returns r /\
    CsvReport.headers r = resplit delimiter first /\
    CsvReport.header_count r = length (resplit delimiter first) /\
    CsvReport.row_count r = length rest /\
    CsvReport.consistent_columns r =
      columns_consistent (resplit delimiter first) (map (resplit delimiter) rest) /\
    CsvReport.is_single_column_csv r = single_content_header (resplit delimiter first) /\
    CsvReport.column_data_types r =
      dict_of (zip (resplit delimiter first)
                 (map (column_data_type (map (resplit delimiter) rest))
                    (seq 0 (length (resplit delimiter first))))).
Proof.
  eexists. split; [reflexivity|]. cbn.
  rewrite length_map. repeat split; reflexivity.
Qed.

End VerifierFacts.

Lemma single_content_header_spec (headers : list string) :
  single_content_header headers = true <-> headers = ["Content"].
Proof.
  unfold single_content_header. split.
  - destruct headers as [|h [|h' t]]; cbn; try discriminate.
    intros H. apply String.eqb_eq in H. now subst.
  - intros ->. reflexivity.
Qed.

Lemma distinct_lengths_one (rows : list (list string)) :
  size (list_to_set (map length rows) : gset nat) = 1 <->
  rows <> [] /\ forall r1 r2, r1 ∈ rows -> r2 ∈ rows -> length r1 = length r2.
Proof.
  split.
  - intros Hsz. apply size_1_elem_of in Hsz as [n Hn].
    assert (Hall : forall r, r ∈ rows -> length r = n).
    { intros r Hr.
      assert (length r ∈ (list_to_set (map length rows) : gset nat)) as Hin.
      { apply elem_of_list_to_set, list_elem_of_fmap. eauto. }
      rewrite Hn in Hin. now apply elem_of_singleton in Hin. }
    split.
    + intros ->. cbn in Hn.
      assert (n ∈ (∅ : gset nat)) as Hin by (rewrite Hn; now apply elem_of_singleton).
      now apply not_elem_of_empty in Hin.
    + intros r1 r2 H1 H2. rewrite (Hall r1 H1), (Hall r2 H2). reflexivity.
  - intros [Hne Hsame]. destruct rows as [|r0 rows']; [congruence|].
    assert ((list_to_set (map length (r0 :: rows')) : gset nat) = {[ length r0 ]}) as ->.
    { apply set_eq. intros n. rewrite elem_of_list_to_set, list_elem_of_fmap, elem_of_singleton.
      split.
      - intros (r & -> & Hr). apply Hsame; [exact Hr | left].
      - intros ->. exists r0. split; [reflexivity | left]. }
    apply size_singleton.
Qed.

Lemma split_not_nil (c : ascii) (s : string) : Py.split c s <> [].
Proof.
  induction s as [|a s IH]; cbn; [discriminate|].
  destruct (Ascii.eqb a c); [discriminate|].
  destruct (Py.split c s); [contradiction | discriminate].
Qed.

Lemma resplit_nil_iff (d : ascii) (row : list string) : resplit d row = [] <-> row = [].
Proof.
  split; [|intros ->; reflexivity].
  destruct row as [|cell [|cell' row']]; cbn; try discriminate; [reflexivity|].
  destruct (Py.contains d cell); [|discriminate].
  intros H. now apply split_not_nil in H.
Qed.

(** C1.  [verify_csv] takes the header with [next(reader)] and nothing
    guards that call: on parsed content without a header row (an empty
    file) it raises [StopIteration] instead of returning a report.  It is
    the only way the body fails: with a first record, whatever the records
    are, a report is returned. *)
Theorem verify_parsed_no_header_raises
    (file_path : string) (file_size : Z) (encoding : option string) (delimiter : ascii) :
  verify_parsed file_path file_size encoding delimiter [] = Raises StopIteration /\
  forall first rest, exists r,
    verify_parsed file_path file_size encoding delimiter (first :: rest) = Returns r.
Proof.
  split; [reflexivity|].
  intros first rest.
  destruct (verify_parsed_returns file_path file_size encoding delimiter first rest) as (r & Hr & _).
  eauto.
Qed.

Section VerifyCsvFacts.

Variable chardet_detect : string -> option string.
Variable open_text : option string -> string -> decoding.
Variable csv_reader : option string -> string -> ascii -> record_stream.

(** The same at the entry point: for a file that exists and holds no text,
    from which the reader yields no record, [verify_csv] raises. *)
Lemma verify_csv_empty_file_raises (f : file) :
  present f = true ->
  open_text (chardet_detect (raw_data f)) (raw_data f) = Decoded EmptyString ->
  csv_reader (chardet_detect (raw_data f)) (raw_data f) ","%char = mk_stream [] None ->
  verify_csv chardet_detect open_text csv_reader f "," = Raises StopIteration.
Proof.
  intros Hpresent Htext Hreader.
  unfold verify_csv, detect_encoding. rewrite Hpresent, Htext.
  cbn. now rewrite Hreader.
Qed.

End VerifyCsvFacts.

(** C2, as stated, fails on a table without data rows: all its rows (there
    are none) have the same column count, the header is not the single
    [Content] column, and the report says the columns are not consistent. *)
Lemma consistent_columns_no_rows_counterexample :
  single_content_header (resplit ","%char ["id"; "name"]) = false /\
  (forall r1 r2 : list string,
      r1 ∈ map (resplit ","%char) [] -> r2 ∈ map (resplit ","%char) [] ->
      length r1 = length r2) /\
  exists r,
    verify_parsed "t.csv" 8 (Some "ascii") ","%char [["id"; "name"]] = Returns r /\
    CsvReport.consistent_columns r = false.
Proof.
  split; [reflexivity|]. split.
  - intros r1 r2 H. cbn in H. now apply not_elem_of_nil in H.
  - eexists. split; reflexivity.
Qed.

(** C2 (amended).  For a table whose header is not the single [Content]
    column, [consistent_columns] is true exactly when the set of distinct
    row lengths has exactly one member; that is, exactly when there is at
    least one data row and all rows have the same column count.  A table
    with two rows of different lengths is reported inconsistent. *)
Theorem consistent_columns_iff_one_row_length
    (file_path : string) (file_size : Z) (encoding : option string) (delimiter : ascii)
    (first : list string) (rest : list (list string)) :
  single_content_header (resplit delimiter first) = false ->
  exists r,
    verify_parsed file_path file_size encoding delimiter (first :: rest) = Returns r /\
    (CsvReport.consistent_columns r = true <->
       size (list_to_set (map length (map (resplit delimiter) rest)) : gset nat) = 1) /\
    (CsvReport.consistent_columns r = true <->
       map (resplit delimiter) rest <> [] /\
       forall r1 r2, r1 ∈ map (resplit delimiter) rest -> r2 ∈ map (resplit delimiter) rest ->
                     length r1 = length r2) /\
    ((exists r1 r2, r1 ∈ map (resplit delimiter) rest /\ r2 ∈ map (resplit delimiter) rest /\
                    length r1 <> length r2) ->
     CsvReport.consistent_columns r = false).
Proof.
  intros Hhdr.
  destruct (verify_parsed_returns file_path file_size encoding delimiter first rest)
    as (r & Hr & _ & _ & _ & Hc & _).
  exists r. split; [exact Hr|].
  rewrite Hc. unfold columns_consistent. rewrite Hhdr.
  set (rows := map (resplit delimiter) rest).
  assert (Hone : bool_decide (size (list_to_set (map length rows) : gset nat) = 1) = true <->
                 size (list_to_set (map length rows) : gset nat) = 1)
    by apply bool_decide_eq_true.
  split; [exact Hone|]. split.
  - rewrite Hone. apply distinct_lengths_one.
  - intros (r1 & r2 & H1 & H2 & Hne).
    apply not_true_is_false. intros Ht.
    apply Hone, distinct_lengths_one in Ht as [_ Hsame].
    apply Hne, Hsame; assumption.
Qed.

Lemma consistent_columns_iff_one_row_length_witness :
  single_content_header (resplit ","%char ["id"; "name"]) = false /\
  exists r,
    verify_parsed "t.csv" 20 (Some "ascii") ","%char
      [["id"; "name"]; ["1"; "ann"]; ["2"]] = Returns r /\
    CsvReport.consistent_columns r = false.
Proof.
  split; [reflexivity|].
  destruct (consistent_columns_iff_one_row_length "t.csv" 20 (Some "ascii") ","%char
              ["id"; "name"] [["1"; "ann"]; ["2"]] eq_refl) as (r & Hr & _ & _ & Hdiff).
  exists r. split; [exact Hr|].
  apply Hdiff. exists ["1"; "ann"], ["2"]. cbn.
  split; [left|]. split; [right; left|]. discriminate.
Defined.

(** C3, as stated, fails on a table whose header is the single [Content]
    column and one of whose rows is empty (what [csv.reader] yields for a
    blank line): the report says the columns are not consistent. *)
Lemma single_content_empty_row_counterexample :
  resplit ","%char ["Content"] = ["Content"] /\
  exists r,
    verify_parsed "t.csv" 14 (Some "ascii") ","%char [["Content"]; ["x"]; []] = Returns r /\
    CsvReport.is_single_column_csv r = true /\
    CsvReport.consistent_columns r = false.
Proof.
  split; [reflexivity|]. eexists. split; [reflexivity|]. split; reflexivity.
Qed.

(** C3 (amended).  For a table whose header is exactly one column named
    [Content], [consistent_columns] is true exactly when every row has at
    least one column, whatever the lengths of the rows otherwise are. *)
Theorem single_content_consistent_iff_no_empty_row
    (file_path : string) (file_size : Z) (encoding : option string) (delimiter : ascii)
    (first : list string) (rest : list (list string)) :
  resplit delimiter first = ["Content"] ->
  exists r,
    verify_parsed file_path file_size encoding delimiter (first :: rest) = Returns r /\
    CsvReport.is_single_column_csv r = true /\
    (CsvReport.consistent_columns r = true <->
       forall row, row ∈ map (resplit delimiter) rest -> 1 <= length row) /\
    (CsvReport.consistent_columns r = true <-> forall row, row ∈ rest -> row <> []).
Proof.
  intros Hhdr.
  destruct (verify_parsed_returns file_path file_size encoding delimiter first rest)
    as (r & Hr & _ & _ & _ & Hc & Hs & _).
  exists r. split; [exact Hr|].
  rewrite Hs, Hc, Hhdr. split; [reflexivity|].
  unfold columns_consistent.
  replace (single_content_header ["Content"]) with true by reflexivity.
  assert (Hall : forallb (fun row : list string => 1 <=? length row) (map (resplit delimiter) rest) = true <->
                 forall row, row ∈ map (resplit delimiter) rest -> 1 <= length row).
  { rewrite forallb_forall. split.
    - intros H row Hin. apply Nat.leb_le, H, list_elem_of_In, Hin.
    - intros H row Hin. apply Nat.leb_le, H, list_elem_of_In, Hin. }
  split; [exact Hall|].
  rewrite Hall. split.
  - intros H row Hin ->.
    specialize (H (resplit delimiter [])).
    cbn in H. assert (1 <= 0) by (apply H, list_elem_of_fmap; exists []; auto). lia.
  - intros H row Hin. apply list_elem_of_fmap in Hin as (row0 & -> & Hin0).
    specialize (H row0 Hin0).
    destruct (resplit delimiter row0) eqn:E; [|cbn; lia].
    apply resplit_nil_iff in E. contradiction.
Qed.

Lemma single_content_consistent_iff_no_empty_row_witness :
  resplit ","%char ["Content"] = ["Content"] /\
  exists r,
    verify_parsed "t.csv" 30 (Some "ascii") ","%char
      [["Content"]; ["one line"]; ["a"; "b"; "c"]] = Returns r /\
    CsvReport.consistent_columns r = true.
Proof.
  split; [reflexivity|].
  destruct (single_content_consistent_iff_no_empty_row "t.csv" 30 (Some "ascii") ","%char
              ["Content"] [["one line"]; ["a"; "b"; "c"]] eq_refl) as (r & Hr & _ & _ & Hiff).
  exists r. split; [exact Hr|].
  apply Hiff. intros row Hin.
  apply list_elem_of_In in Hin. cbn in Hin.
  destruct Hin as [<-|[<-|[]]]; discriminate.
Defined.

(** *** The mapping from header names to types *)

Lemma dict_of_snoc (pairs : list (string * string)) (k v : string) :
  dict_of (pairs ++ [(k, v)]) = <[k := v]> (dict_of pairs).
Proof. unfold dict_of. now rewrite foldl_snoc. Qed.

Lemma dict_of_dom (pairs : list (string * string)) :
  dom (dict_of pairs) = (list_to_set pairs.*1 : gset string).
Proof.
  induction pairs as [|[k v] pairs IH] using rev_ind; [reflexivity|].
  rewrite dict_of_snoc, dom_insert_L, IH, fmap_app, list_to_set_app_L.
  cbn [fmap list_fmap fst list_to_set]. rewrite union_empty_r_L. apply union_comm_L.
Qed.

Lemma dict_of_lookup_last (pairs : list (string * string)) (i : nat) (k v : string) :
  pairs !! i = Some (k, v) ->
  (forall j v', i < j -> pairs !! j <> Some (k, v')) ->
  dict_of pairs !! k = Some v.
Proof.
  revert i. induction pairs as [|[k' v'] pairs IH] using rev_ind; intros i Hi Hlast.
  - discriminate.
  - rewrite dict_of_snoc.
    destruct (decide (i = length pairs)) as [->|Hne].
    + rewrite lookup_app_r, Nat.sub_diag in Hi by lia. cbn in Hi.
      injection Hi as -> ->. apply lookup_insert_eq.
    + assert (Hlt : i < length pairs).
      { apply lookup_lt_Some in Hi. rewrite length_app in Hi. cbn in Hi. lia. }
      rewrite lookup_app_l in Hi by lia.
      assert (k' <> k).
      { intros ->. apply (Hlast (length pairs) v'); [lia|].
        rewrite lookup_app_r, Nat.sub_diag by lia. reflexivity. }
      rewrite lookup_insert_ne by assumption.
      apply (IH i Hi). intros j w Hj Hjw.
      apply (Hlast j w Hj).
      rewrite lookup_app_l; [exact Hjw|]. now apply lookup_lt_Some in Hjw.
Qed.

Lemma size_list_to_set_remove_dups (l : list string) :
  size (list_to_set l : gset string) = length (remove_dups l).
Proof.
  rewrite <- (size_list_to_set (C := gset string) (remove_dups l)) by apply NoDup_remove_dups.
  f_equal. apply set_eq. intros x.
  now rewrite !elem_of_list_to_set, elem_of_remove_dups.
Qed.

Lemma remove_dups_length_le (l : list string) : length (remove_dups l) <= length l.
Proof.
  induction l as [|x l IH]; cbn; [lia|].
  destruct (decide_rel elem_of x l); cbn; lia.
Qed.

Lemma remove_dups_length_lt (l : list string) :
  ~ NoDup l -> length (remove_dups l) < length l.
Proof.
  induction l as [|x l IH]; intros Hdup.
  - exfalso. apply Hdup. constructor.
  - cbn. pose proof (remove_dups_length_le l).
    destruct (decide_rel elem_of x l) as [Hin|Hnin]; cbn; [lia|].
    assert (~ NoDup l) by (intros Hnd; apply Hdup; now constructor).
    specialize (IH ltac:(assumption)). lia.
Qed.

Lemma column_types_lookup (rows : list (list string)) (headers : list string) (i : nat) (name : string) :
  headers !! i = Some name ->
  zip headers (map (column_data_type rows) (seq 0 (length headers))) !! i
    = Some (name, column_data_type rows i).
Proof.
  intros Hi. apply lookup_zip_Some. split; [exact Hi|].
  change (map (column_data_type rows) (seq 0 (length headers)))
    with (column_data_type rows <$> seq 0 (length headers)).
  rewrite list_lookup_fmap, lookup_seq_lt by (now apply lookup_lt_Some in Hi).
  reflexivity.
Qed.

Lemma column_types_fst (rows : list (list string)) (headers : list string) :
  (zip headers (map (column_data_type rows) (seq 0 (length headers)))).*1 = headers.
Proof. apply fst_zip. rewrite length_map, length_seq. lia. Qed.

Lemma report_type_of_last_position (rows : list (list string)) (headers : list string)
    (i : nat) (name : string) :
  headers !! i = Some name ->
  (forall j, i < j -> headers !! j <> Some name) ->
  dict_of (zip headers (map (column_data_type rows) (seq 0 (length headers)))) !! name
    = Some (column_data_type rows i).
Proof.
  intros Hi Hlast.
  apply (dict_of_lookup_last _ i); [now apply column_types_lookup|].
  intros j v Hj Hjv. apply lookup_zip_Some in Hjv as [Hjn _].
  exact (Hlast j Hj Hjn).
Qed.

(** C9.  The report's [column_data_types] is keyed by header name.  Its keys
    are the distinct header names, one entry each; the entry of a name is
    the type computed for the last header position bearing it; so with a
    duplicated name the mapping has fewer entries than [header_count],
    while [headers] and [header_count] still give the whole header
    sequence. *)
Theorem column_data_types_keyed_by_name
    (file_path : string) (file_size : Z) (encoding : option string) (delimiter : ascii)
    (first : list string) (rest : list (list string)) :
  exists r,
    verify_parsed file_path file_size encoding delimiter (first :: rest) = Returns r /\
    CsvReport.headers r = resplit delimiter first /\
    CsvReport.header_count r = length (CsvReport.headers r) /\
    dom (CsvReport.column_data_types r) = (list_to_set (CsvReport.headers r) : gset string) /\
    size (CsvReport.column_data_types r) = length (remove_dups (CsvReport.headers r)) /\
    size (CsvReport.column_data_types r) <= CsvReport.header_count r /\
    (~ NoDup (CsvReport.headers r) ->
     size (CsvReport.column_data_types r) < CsvReport.header_count r) /\
    (forall i name,
        CsvReport.headers r !! i = Some name ->
        (forall j, i < j -> CsvReport.headers r !! j <> Some name) ->
        CsvReport.column_data_types r !! name
          = Some (column_data_type (map (resplit delimiter) rest) i)).
Proof.
  destruct (verify_parsed_returns file_path file_size encoding delimiter first rest)
    as (r & Hr & Hh & Hn & _ & _ & _ & Ht).
  exists r. split; [exact Hr|]. split; [exact Hh|].
  rewrite Hn, Hh, Ht.
  set (headers := resplit delimiter first).
  set (rows := map (resplit delimiter) rest).
  assert (Hdom : dom (dict_of (zip headers (map (column_data_type rows) (seq 0 (length headers)))))
                 = (list_to_set headers : gset string))
    by (now rewrite dict_of_dom, column_types_fst).
  assert (Hsize : size (dict_of (zip headers (map (column_data_type rows) (seq 0 (length headers)))))
                  = length (remove_dups headers)).
  { rewrite <- size_list_to_set_remove_dups, <- Hdom. symmetry. apply size_dom. }
  split; [reflexivity|]. split; [exact Hdom|]. split; [exact Hsize|].
  rewrite Hsize. split; [apply remove_dups_length_le|]. split.
  - apply remove_dups_length_lt.
  - intros i name. apply report_type_of_last_position.
Qed.

Lemma column_data_types_keyed_by_name_witness :
  exists r,
    verify_parsed "t.csv" 24 (Some "ascii") ","%char
      [["id"; "x"; "id"]; ["a"; "1"; "2"]; ["b"; "3"; "4"]] = Returns r /\
    CsvReport.header_count r = 3 /\
    size (CsvReport.column_data_types r) = 2 /\
    CsvReport.column_data_types r !! "id" = Some "numeric".
Proof.
  destruct (column_data_types_keyed_by_name "t.csv" 24 (Some "ascii") ","%char
              ["id"; "x"; "id"] [["a"; "1"; "2"]; ["b"; "3"; "4"]])
    as (r & Hr & Hh & Hn & _ & Hs & _ & _ & Hl).
  exists r. split; [exact Hr|].
  rewrite Hn, Hs, Hh. split; [reflexivity|]. split; [reflexivity|].
  rewrite Hh in Hl. rewrite (Hl 2 "id" eq_refl).
  - reflexivity.
  - intros j Hj Hjl. apply lookup_lt_Some in Hjl. cbn in Hjl. lia.
Defined.

(** *** Numeric values *)

Lemma app_cons (c : ascii) (a b : string) : String c a +:+ b = String c (a +:+ b).
Proof. reflexivity. Qed.

Lemma app_nil (b : string) : EmptyString +:+ b = b.
Proof. reflexivity. Qed.

Lemma append_empty_string (s : string) : s +:+ EmptyString = s.
Proof. induction s as [|c s IH]; [reflexivity | now rewrite app_cons, IH]. Qed.













(** *** Trimming *)

Lemma app_assoc_string (a b c : string) : (a +:+ b) +:+ c = a +:+ (b +:+ c).
Proof. induction a as [|x a IH]; rewrite ?app_cons, ?app_nil; [reflexivity | now rewrite IH]. Qed.















(** *** The values of a column *)








(** ** The line classifier *)

Lemma contains_iff_count (c : ascii) (s : string) :
  Py.contains c s = true <-> 0 < Py.count c s.
Proof.
  induction s as [|a s IH]; cbn; [split; [discriminate | lia]|].
  destruct (Ascii.eqb a c); cbn; [split; [lia | reflexivity] | exact IH].
Qed.

(** [max] over the four candidate counts: the most frequent candidate, the
    earliest one when several are. *)
Lemma max_key_candidates (count : ascii -> nat) :
  exists d,
    Py.max_key (map (fun d => (d, count d)) potential_delimiters) = Returns d /\
    d ∈ potential_delimiters /\
    Py.get (map (fun d => (d, count d)) potential_delimiters) d = count d /\
    (forall d', d' ∈ potential_delimiters -> count d' <= count d) /\
    (forall i j d', potential_delimiters !! i = Some d' -> potential_delimiters !! j = Some d ->
                    i < j -> count d' < count d).
Proof.
  unfold potential_delimiters. cbn [map Py.max_key Py.max_key_from fst snd].
  assert (Hmem : forall d' : ascii, d' ∈ [","; ";"; "009"; "|"]%char ->
                   d' = ","%char \/ d' = ";"%char \/ d' = "009"%char \/ d' = "|"%char).
  { intros d' H. repeat (apply elem_of_cons in H as [H|H]; [auto|]).
    now apply not_elem_of_nil in H. }
  assert (Hidx : forall i (d' : ascii), [","; ";"; "009"; "|"]%char !! i = Some d' ->
                   (i = 0 /\ d' = ","%char) \/ (i = 1 /\ d' = ";"%char) \/
                   (i = 2 /\ d' = "009"%char) \/ (i = 3 /\ d' = "|"%char)).
  { intros [|[|[|[|i]]]] d' H; cbn in H; try discriminate; injection H as <-; auto 6. }
  repeat match goal with
         | |- context [?a <? ?b] => destruct (Nat.ltb_spec a b)
         end;
    eexists; (split; [reflexivity|]);
    (split; [repeat first [apply list_elem_of_here | apply list_elem_of_further]|]);
    (split; [reflexivity|]);
    (split;
     [ intros d' Hd'; apply Hmem in Hd' as [->|[->|[->| ->]]]; lia
     | intros i j d' Hi Hj Hij;
       apply Hidx in Hi as [[-> ->]|[[-> ->]|[[-> ->]| [-> ->]]]];
       apply Hidx in Hj as [[-> Hj]|[[-> Hj]|[[-> Hj]| [-> Hj]]]];
       try lia; try discriminate Hj; lia ]).
Qed.

Lemma candidate_present_iff (first : string) :
  existsb (fun d => Py.contains d first) potential_delimiters = true <->
  exists d, d ∈ potential_delimiters /\ 0 < Py.count d first.
Proof.
  rewrite existsb_exists. split.
  - intros (d & Hin & Hc). exists d. split; [now apply list_elem_of_In | now apply contains_iff_count].
  - intros (d & Hin & Hc). exists d. split; [now apply list_elem_of_In | now apply contains_iff_count].
Qed.

Lemma line_matches_iff (d : ascii) (expected_count : nat) (line : string) :
  line_matches d expected_count line = true <->
  Py.strip line <> EmptyString /\
  Py.count d line <= expected_count + 2 /\ expected_count <= Py.count d line + 2.
Proof.
  unfold line_matches. rewrite andb_true_iff, Z.leb_le.
  assert (Py.truthy (Py.strip line) = true <-> Py.strip line <> EmptyString) as ->
    by (destruct (Py.strip line); cbn; split; congruence).
  split; intros [H1 H2]; (split; [exact H1 | lia]).
Qed.

Lemma detect_csv_header (first : string) (rest : list string) (guess : Guess.t) (d : ascii) :
  existsb (fun d => Py.contains d first) potential_delimiters = true ->
  Py.max_key (map (fun d => (d, Py.count d first)) potential_delimiters) = Returns d ->
  Py.get (map (fun d => (d, Py.count d first)) potential_delimiters) d = Py.count d first ->
  0 < Py.count d first ->
  (Z.of_nat (length rest) < 2 ^ 49)%Z ->
  detect_csv (first :: rest) guess =
    Returns (if 7 * length rest
                  <=? 10 * length (List.filter (line_matches d (Py.count d first)) rest)
             then Guess.mk true d
                    (Float64.truediv
                       (Z.of_nat (length (List.filter (line_matches d (Py.count d first)) rest)))
                       (Z.of_nat (Nat.max 1 (length rest))))
             else guess).
Proof.
  intros Hany Hmax Hget Hpos Hbound.
  unfold detect_csv. rewrite Hany, Hmax.
  cbn [mbind outcome_bind]. rewrite Hget.
  destruct (Nat.ltb_spec 0 (Py.count d first)) as [_|]; [|lia].
  replace (length (first :: rest) - 1) with (length rest) by (cbn [length]; lia).
  rewrite Float64Facts.int_ge_0_7 by lia.
  set (m := length (List.filter (line_matches d (Py.count d first)) rest)).
  destruct (Z.leb_spec (7 * Z.of_nat (length rest)) (10 * Z.of_nat m)),
           (Nat.leb_spec (7 * length rest) (10 * m)); try reflexivity; lia.
Qed.

Lemma detect_csv_no_header (first : string) (rest : list string) (guess : Guess.t) :
  existsb (fun d => Py.contains d first) potential_delimiters = false ->
  detect_csv (first :: rest) guess = Returns guess.
Proof. intros H. unfold detect_csv. now rewrite H. Qed.

(** With at least one line the remaining steps cannot fail. *)
Lemma classify_returns (file_path : string) (file_size : Z) (encoding : option string)
    (is_large_file : bool) (line_count : nat) (first : string) (rest : list string) :
  exists best,
    forall guess,
      detect_csv (first :: rest) (Guess.mk false best (Float64.mk 0 0)) = Returns guess ->
      exists r,
        classify file_path file_size encoding is_large_file line_count (first :: rest)
          = Returns r /\
        TxtReport.potential_csv r = Guess.is_potential_csv guess /\
        TxtReport.potential_delimiter r =
          (if Guess.is_potential_csv guess then Some (Guess.best_delimiter guess) else None) /\
        TxtReport.csv_confidence r =
          (if Guess.is_potential_csv guess then Guess.csv_confidence guess else Float64.mk 0 0) /\
        TxtReport.line_count r = line_count /\
        TxtReport.is_large_file r = is_large_file.
Proof.
  destruct (max_key_candidates (fun d => Py.sum (map (Py.count d) (first :: rest))))
    as (best & Hbest & _).
  exists best. intros guess Hguess.
  unfold classify. rewrite Hbest. cbn [mbind outcome_bind]. rewrite Hguess.
  cbn [mbind outcome_bind map Py.max_list Py.min_list mret outcome_ret].
  eexists. split; [reflexivity|]. cbn. repeat split; reflexivity.
Qed.

(** C4, as stated, fails when blank lines follow the header: the matching
    lines are measured against all later lines, blank ones included, not
    against the later non-blank lines.  Here one of the three later lines
    is not blank and it matches, so the fraction of the claim is 1, yet the
    input is not classified as potential CSV. *)
Lemma potential_csv_blank_lines_counterexample :
  let nl := String "010"%char EmptyString in
  let first := "a,b" +:+ nl in
  let rest := ["c,d" +:+ nl; nl; nl] in
  existsb (fun d => Py.contains d first) potential_delimiters = true /\
  Py.max_key (map (fun d => (d, Py.count d first)) potential_delimiters) = Returns ","%char /\
  7 * length (List.filter (fun line => Py.truthy (Py.strip line)) rest)
    <= 10 * length (List.filter (line_matches ","%char (Py.count ","%char first)) rest) /\
  exists r,
    classify "notes.txt" 10 (Some "ascii") false 4 (first :: rest) = Returns r /\
    TxtReport.potential_csv r = false.
Proof.
  cbn zeta. split; [reflexivity|]. split; [reflexivity|].
  split; [apply Nat.leb_le; reflexivity|].
  eexists. split; [vm_compute; reflexivity | reflexivity].
Qed.

(** C4 (amended).  When the first line contains a candidate delimiter, let
    [d] be the candidate most frequent in that line and [expected_count]
    its count there.  The input is classified potential CSV exactly when
    the number of later non-blank lines whose count of [d] is within 2 of
    [expected_count] is at least 0.7 times the number of all later lines,
    blank or not; in that case the chosen delimiter is [d] and the
    confidence is the number of matching lines divided by the number of
    later lines (by 1 when there is none), rounded to the nearest float;
    otherwise no delimiter is reported and the confidence is 0.  The number
    of lines is bounded by what a list can ever hold, which keeps the
    product [0.7 * (len - 1)] exact enough. *)
Theorem potential_csv_iff_70_percent_of_later_lines
    (file_path : string) (file_size : Z) (encoding : option string)
    (is_large_file : bool) (line_count : nat) (first : string) (rest : list string) :
  existsb (fun d => Py.contains d first) potential_delimiters = true ->
  (Z.of_nat (length rest) < 2 ^ 49)%Z ->
  exists r d,
    classify file_path file_size encoding is_large_file line_count (first :: rest) = Returns r /\
    Py.max_key (map (fun d => (d, Py.count d first)) potential_delimiters) = Returns d /\
    d ∈ potential_delimiters /\
    (forall d', d' ∈ potential_delimiters -> Py.count d' first <= Py.count d first) /\
    0 < Py.count d first /\
    let expected_count := Py.count d first in
    let matching_lines := length (List.filter (line_matches d expected_count) rest) in
    (forall line,
        line_matches d expected_count line = true <->
        Py.strip line <> EmptyString /\
        Py.count d line <= expected_count + 2 /\ expected_count <= Py.count d line + 2) /\
    (TxtReport.potential_csv r = true <-> 7 * length rest <= 10 * matching_lines) /\
    (TxtReport.potential_csv r = true ->
     TxtReport.potential_delimiter r = Some d /\
     TxtReport.csv_confidence r =
       Float64.truediv (Z.of_nat matching_lines) (Z.of_nat (Nat.max 1 (length rest))) /\
     (0 < matching_lines ->
      Float64.nearest (TxtReport.csv_confidence r)
        (Z.of_nat matching_lines) (Z.of_nat (Nat.max 1 (length rest))))) /\
    (TxtReport.potential_csv r = false ->
     TxtReport.potential_delimiter r = None /\
     TxtReport.csv_confidence r = Float64.mk 0 0).
Proof.
  intros Hany Hbound.
  destruct (max_key_candidates (fun d => Py.count d first)) as (d & Hmax & Hin & Hget & Hmost & _).
  assert (Hpos : 0 < Py.count d first).
  { apply candidate_present_iff in Hany as (d' & Hd' & Hc). specialize (Hmost d' Hd'). lia. }
  destruct (classify_returns file_path file_size encoding is_large_file line_count first rest)
    as (best & Hclass).
  destruct (Hclass _ (detect_csv_header first rest _ d Hany Hmax Hget Hpos Hbound))
    as (r & Hr & Hp & Hd & Hc & _).
  exists r, d. split; [exact Hr|]. split; [exact Hmax|]. split; [exact Hin|].
  split; [exact Hmost|]. split; [exact Hpos|]. cbn zeta.
  split; [apply line_matches_iff|].
  rewrite Hp, Hd, Hc.
  destruct (Nat.leb_spec (7 * length rest)
              (10 * length (List.filter (line_matches d (Py.count d first)) rest)));
    cbn [Guess.is_potential_csv Guess.best_delimiter Guess.csv_confidence].
  - split; [split; [intros _; assumption | reflexivity]|].
    split; [|discriminate].
    intros _. split; [reflexivity|]. split; [reflexivity|].
    intros Hm. apply Float64Facts.truediv_nearest; lia.
  - split; [split; [discriminate | lia]|].
    split; [discriminate | intros _; split; reflexivity].
Qed.

Lemma potential_csv_iff_70_percent_of_later_lines_witness :
  existsb (fun d => Py.contains d "a,b,c") potential_delimiters = true /\
  (Z.of_nat (length ["1,2,3"; "4,5"; "end"]) < 2 ^ 49)%Z /\
  exists r,
    classify "notes.txt" 20 (Some "ascii") false 4 ["a,b,c"; "1,2,3"; "4,5"; "end"] = Returns r /\
    TxtReport.potential_csv r = true.
Proof.
  split; [reflexivity|]. split; [reflexivity|].
  destruct (potential_csv_iff_70_percent_of_later_lines "notes.txt" 20 (Some "ascii") false 4
              "a,b,c" ["1,2,3"; "4,5"; "end"] eq_refl eq_refl)
    as (r & d & Hr & Hmax & _ & _ & _ & _ & Hiff & _).
  exists r. split; [exact Hr|].
  injection Hmax as <-.
  apply Hiff. apply Nat.leb_le. reflexivity.
Defined.

(** C7.  When the first line contains none of the four candidate
    delimiters, the classification returns with [potential_csv] false (no
    delimiter, confidence 0), whatever the later lines are. *)
Theorem no_delimiter_in_first_line_not_csv
    (file_path : string) (file_size : Z) (encoding : option string)
    (is_large_file : bool) (line_count : nat) (first : string) (rest : list string) :
  existsb (fun d => Py.contains d first) potential_delimiters = false ->
  exists r,
    classify file_path file_size encoding is_large_file line_count (first :: rest) = Returns r /\
    TxtReport.potential_csv r = false /\
    TxtReport.potential_delimiter r = None /\
    TxtReport.csv_confidence r = Float64.mk 0 0.
Proof.
  intros Hnone.
  destruct (classify_returns file_path file_size encoding is_large_file line_count first rest)
    as (best & Hclass).
  destruct (Hclass _ (detect_csv_no_header first rest _ Hnone)) as (r & Hr & Hp & Hd & Hc & _).
  exists r. split; [exact Hr|]. rewrite Hp, Hd, Hc. repeat split; reflexivity.
Qed.

Lemma no_delimiter_in_first_line_not_csv_witness :
  existsb (fun d => Py.contains d "shopping list") potential_delimiters = false /\
  exists r,
    classify "notes.txt" 30 (Some "ascii") false 3 ["shopping list"; "a,b,c"; "d,e,f"] = Returns r /\
    TxtReport.potential_csv r = false.
Proof.
  split; [reflexivity|].
  destruct (no_delimiter_in_first_line_not_csv "notes.txt" 30 (Some "ascii") false 3
              "shopping list" ["a,b,c"; "d,e,f"] eq_refl) as (r & Hr & Hp & _).
  exists r. split; [exact Hr | exact Hp].
Defined.

(** ** Promotion of plain text *)

Lemma parse_lines_fold (d : ascii) (lines : list string) (acc : list (list string)) (m : nat) :
  foldl (parse_line d) (acc, m) lines =
    (acc ++ map (line_cells d) lines,
     Nat.max m (max_list (map length (map (line_cells d) lines)))).
Proof.
  revert acc m. induction lines as [|line lines IH]; intros acc m.
  - cbn. now rewrite app_nil_r, Nat.max_0_r.
  - assert (Hstep : parse_line d (acc, m) line =
                    (acc ++ [line_cells d line], Nat.max m (length (line_cells d line)))).
    { unfold parse_line, line_cells. destruct (Py.contains d line); reflexivity. }
    cbn [foldl]. rewrite Hstep, IH, <- app_assoc.
    cbn [map app]. f_equal.
    change (max_list (length (line_cells d line) :: ?l))
      with (Nat.max (length (line_cells d line)) (max_list l)).
    lia.
Qed.

Lemma append_empty_replicate (n : nat) (row : list string) :
  append_empty n row = row ++ replicate n EmptyString.
Proof.
  revert row. induction n as [|n IH]; intros row; cbn.
  - now rewrite app_nil_r.
  - rewrite IH, <- app_assoc. reflexivity.
Qed.

Lemma promote_eq (d : ascii) (lines : list string) :
  promote d lines =
    (map (fun cells => cells ++ replicate (max_list (map length (map (line_cells d) lines))
                                             - length cells) EmptyString)
         (map (line_cells d) lines),
     max_list (map length (map (line_cells d) lines))).
Proof.
  unfold promote. rewrite parse_lines_fold. cbn [app Nat.max].
  f_equal. apply map_ext. intros cells. unfold pad_row. apply append_empty_replicate.
Qed.

(** C8.  Promotion splits every line into cells, takes the largest number
    of cells as [max_columns], and hands the writer, for every line, its
    cells followed by as many empty cells as it takes to reach
    [max_columns]: every row has [max_columns] cells, every cell of a line
    is in its row at the same position, and nothing but empty cells is
    added.  Lines [a,b,c] and [d,e], which are classified potential CSV
    with the comma, give rows [a; b; c] and [d; e; (empty)]. *)
Theorem promotion_pads_never_truncates (csv_delimiter : ascii) (lines : list string) :
  let cells_of := map (line_cells csv_delimiter) lines in
  let csv_rows := (promote csv_delimiter lines).1 in
  let max_columns := (promote csv_delimiter lines).2 in
  max_columns = max_list (map length cells_of) /\
  length csv_rows = length lines /\
  (forall i cells,
      cells_of !! i = Some cells ->
      length cells <= max_columns /\
      csv_rows !! i = Some (cells ++ replicate (max_columns - length cells) EmptyString)) /\
  (forall row, row ∈ csv_rows -> length row = max_columns) /\
  (forall i cells j cell,
      cells_of !! i = Some cells -> cells !! j = Some cell ->
      exists row, csv_rows !! i = Some row /\ row !! j = Some cell) /\
  (exists r,
      classify "in.txt" 10 None false 2 ["a,b,c"; "d,e"] = Returns r /\
      TxtReport.potential_csv r = true /\
      TxtReport.potential_delimiter r = Some ","%char) /\
  promote ","%char ["a,b,c"; "d,e"] = ([["a"; "b"; "c"]; ["d"; "e"; EmptyString]], 3).
Proof.
  cbn zeta. rewrite promote_eq. cbn [fst snd].
  set (cells_of := map (line_cells csv_delimiter) lines).
  set (max_columns := max_list (map length cells_of)).
  assert (Hle : forall i cells, cells_of !! i = Some cells -> length cells <= max_columns).
  { intros i cells Hi. apply max_list_elem_of_le, list_elem_of_fmap.
    exists cells. split; [reflexivity|]. apply list_elem_of_lookup. eauto. }
  assert (Hrow : forall i cells, cells_of !! i = Some cells ->
            map (fun cells => cells ++ replicate (max_columns - length cells) EmptyString) cells_of !! i
            = Some (cells ++ replicate (max_columns - length cells) EmptyString)).
  { intros i cells Hi.
    change (map ?f cells_of) with (f <$> cells_of). now rewrite list_lookup_fmap, Hi. }
  split; [reflexivity|].
  split; [subst cells_of; now rewrite !length_map|].
  split; [intros i cells Hi; split; [eapply Hle; eauto | now apply Hrow]|].
  split.
  { intros row Hin. apply list_elem_of_fmap in Hin as (cells & -> & Hin).
    apply list_elem_of_lookup in Hin as [i Hi]. specialize (Hle i cells Hi).
    rewrite length_app, length_replicate. lia. }
  split.
  { intros i cells j cell Hi Hj. eexists. split; [exact (Hrow i cells Hi)|].
    rewrite lookup_app_l by (eapply lookup_lt_Some; eassumption). exact Hj. }
  split; [|reflexivity].
  eexists. split; [vm_compute; reflexivity|]. split; reflexivity.
Qed.

Lemma promotion_pads_never_truncates_witness :
  (promote ";"%char ["k;v;w"; "1;2"; "plain"]).1 !! 1 = Some ["1"; "2"; EmptyString].
Proof.
  destruct (promotion_pads_never_truncates ";"%char ["k;v;w"; "1;2"; "plain"])
    as (_ & _ & Hrows & _).
  destruct (Hrows 1 ["1"; "2"] eq_refl) as [_ Hrow].
  exact Hrow.
Defined.

(** *** Where a character can occur *)

Lemma contains_app (c : ascii) (a b : string) :
  Py.contains c (a +:+ b) = Py.contains c a || Py.contains c b.
Proof.
  induction a as [|x a IH]; rewrite ?app_cons, ?app_nil; cbn; [reflexivity|].
  now rewrite IH, orb_assoc.
Qed.

Lemma split_cells_free (d : ascii) (s cell : string) :
  cell ∈ Py.split d s -> Py.contains d cell = false.
Proof.
  revert cell. induction s as [|a s IH]; intros cell; cbn.
  - intros H. apply list_elem_of_singleton in H as ->. reflexivity.
  - destruct (Ascii.eqb a d) eqn:E.
    + intros H. apply elem_of_cons in H as [->|H]; [reflexivity | now apply IH].
    + destruct (Py.split d s) as [|cell0 cells].
      * intros H. apply list_elem_of_singleton in H as ->. cbn. now rewrite E.
      * intros H. apply elem_of_cons in H as [->|H].
        -- cbn. rewrite E. apply IH. left.
        -- apply IH. now right.
Qed.

Lemma lstrip_free (d : ascii) (s : string) :
  Py.contains d s = false -> Py.contains d (Py.lstrip s) = false.
Proof.
  induction s as [|a s IH]; cbn; [reflexivity|].
  intros H. apply orb_false_iff in H as [Ha Hs].
  destruct (Py.isspace a); [now apply IH | cbn; now rewrite Ha, Hs].
Qed.

Lemma rstrip_free (d : ascii) (s : string) :
  Py.contains d s = false -> Py.contains d (Py.rstrip s) = false.
Proof.
  induction s as [|a s IH]; cbn; [reflexivity|].
  intros H. apply orb_false_iff in H as [Ha Hs]. specialize (IH Hs).
  destruct (Py.rstrip s) as [|b r].
  - destruct (Py.isspace a); cbn; [reflexivity | now rewrite Ha].
  - cbn. rewrite Ha. exact IH.
Qed.

Lemma strip_free (d : ascii) (s : string) :
  Py.contains d s = false -> Py.contains d (Py.strip s) = false.
Proof. intros H. unfold Py.strip. now apply rstrip_free, lstrip_free. Qed.

Lemma line_cells_free (d : ascii) (line cell : string) :
  cell ∈ line_cells d line -> Py.contains d cell = false.
Proof.
  unfold line_cells. destruct (Py.contains d line) eqn:E.
  - apply split_cells_free.
  - intros H. apply list_elem_of_singleton in H as ->. now apply strip_free.
Qed.

Lemma promote_cells_free (d : ascii) (lines : list string) (row : list string) (cell : string) :
  row ∈ (promote d lines).1 -> cell ∈ row -> Py.contains d cell = false.
Proof.
  rewrite promote_eq. cbn [fst].
  intros Hrow Hcell.
  apply list_elem_of_fmap in Hrow as (cells & -> & Hcells).
  apply list_elem_of_fmap in Hcells as (line & -> & _).
  apply elem_of_app in Hcell as [Hcell|Hcell].
  - eapply line_cells_free; eauto.
  - apply elem_of_replicate in Hcell as [-> _]. reflexivity.
Qed.

(** *** What the writer adds *)

Lemma double_quotes_free (d : ascii) (field : string) :
  d <> CsvWriter.quotechar ->
  Py.contains d (CsvWriter.double_quotes field) = Py.contains d field.
Proof.
  intros Hd.
  assert (Hq : Ascii.eqb CsvWriter.quotechar d = false) by (apply Ascii.eqb_neq; congruence).
  induction field as [|c field IH]; cbn [CsvWriter.double_quotes Py.contains]; [reflexivity|].
  destruct (Ascii.eqb c CsvWriter.quotechar) eqn:E; cbn [Py.contains]; rewrite IH.
  - apply Ascii.eqb_eq in E. subst c. now rewrite Hq.
  - reflexivity.
Qed.

Lemma write_field_free (d requested : ascii) (field : string) :
  d <> CsvWriter.quotechar ->
  Py.contains d (CsvWriter.write_field requested field) = Py.contains d field.
Proof.
  intros Hd.
  assert (Hq : Ascii.eqb CsvWriter.quotechar d = false) by (apply Ascii.eqb_neq; congruence).
  unfold CsvWriter.write_field.
  destruct (CsvWriter.needs_quotes requested field); [|reflexivity].
  cbn [Py.contains]. rewrite contains_app, double_quotes_free by assumption.
  cbn [Py.contains]. rewrite Hq. cbn [orb]. now rewrite orb_false_r.
Qed.

Lemma join_free (d requested : ascii) (fields : list string) :
  d <> requested ->
  (forall f, f ∈ fields -> Py.contains d f = false) ->
  Py.contains d (CsvWriter.join requested fields) = false.
Proof.
  intros Hd. induction fields as [|f fields IH]; intros Hall; [reflexivity|].
  destruct fields as [|f' fields].
  - cbn. apply Hall. left.
  - cbn [CsvWriter.join] in *. rewrite contains_app. cbn [Py.contains].
    rewrite (Hall f) by left.
    destruct (Ascii.eqb_spec requested d); [congruence|].
    cbn. apply IH. intros g Hg. apply Hall. now right.
Qed.

Lemma candidate_not_special (d : ascii) :
  d ∈ potential_delimiters ->
  d <> CsvWriter.quotechar /\ Py.contains d CsvWriter.lineterminator = false.
Proof.
  unfold potential_delimiters. intros H.
  repeat (apply elem_of_cons in H as [->|H]; [split; [discriminate | reflexivity]|]).
  now apply not_elem_of_nil in H.
Qed.

Lemma writerow_free (d requested : ascii) (row : list string) :
  d ∈ potential_delimiters -> d <> requested ->
  (forall cell, cell ∈ row -> Py.contains d cell = false) ->
  Py.contains d (CsvWriter.writerow requested row) = false.
Proof.
  intros Hcand Hd Hall.
  destruct (candidate_not_special d Hcand) as [Hq Hlt].
  unfold CsvWriter.writerow. rewrite contains_app, Hlt, orb_false_r.
  assert (Hj : Py.contains d (CsvWriter.join requested (map (CsvWriter.write_field requested) row)) = false).
  { apply join_free; [assumption|]. intros f Hf.
    apply list_elem_of_fmap in Hf as (cell & -> & Hcell).
    rewrite write_field_free by assumption. now apply Hall. }
  destruct row as [|cell row]; [exact Hj|].
  destruct (CsvWriter.join requested (map (CsvWriter.write_field requested) (cell :: row)));
    [|exact Hj].
  assert (Hqd : Ascii.eqb CsvWriter.quotechar d = false) by (apply Ascii.eqb_neq; congruence).
  cbn [Py.contains]. now rewrite Hqd.
Qed.

Lemma writerows_free (d requested : ascii) (rows : list (list string)) :
  d ∈ potential_delimiters -> d <> requested ->
  (forall row cell, row ∈ rows -> cell ∈ row -> Py.contains d cell = false) ->
  Py.contains d (CsvWriter.writerows requested rows) = false.
Proof.
  intros Hcand Hd. induction rows as [|row rows IH]; intros Hall; [reflexivity|].
  cbn [CsvWriter.writerows foldr]. rewrite contains_app.
  rewrite writerow_free; [|assumption|assumption|intros cell; apply Hall; left].
  apply IH. intros row' cell Hr. apply Hall. now right.
Qed.

Lemma write_table_free (d requested : ascii) (rows : list (list string)) :
  d ∈ potential_delimiters -> d <> requested ->
  (forall row cell, row ∈ rows -> cell ∈ row -> Py.contains d cell = false) ->
  Py.contains d (write_table requested rows) = false.
Proof.
  intros Hcand Hd Hall. destruct rows as [|row rows]; [reflexivity|].
  cbn [write_table]. rewrite contains_app.
  rewrite writerow_free; [|assumption|assumption|intros cell; apply Hall; left].
  apply writerows_free; [assumption|assumption|].
  intros row' cell Hr. apply Hall. now right.
Qed.

(** *** Records whose cells need no quoting *)

Lemma needs_quotes_contains (requested : ascii) (cell : string) :
  CsvWriter.needs_quotes requested cell = false -> Py.contains requested cell = false.
Proof.
  induction cell as [|c cell IH]; cbn; [reflexivity|].
  intros H. apply orb_false_iff in H as [Hs Hn].
  unfold CsvWriter.special in Hs. apply orb_false_iff in Hs as [Hs _].
  apply orb_false_iff in Hs as [Hs _]. rewrite Hs. now apply IH.
Qed.

Lemma map_write_field_plain (requested : ascii) (row : list string) :
  (forall cell, cell ∈ row -> CsvWriter.needs_quotes requested cell = false) ->
  map (CsvWriter.write_field requested) row = row.
Proof.
  induction row as [|cell row IH]; intros Hall; [reflexivity|].
  cbn [map]. unfold CsvWriter.write_field at 1. rewrite (Hall cell) by left.
  f_equal. apply IH. intros c Hc. apply Hall. now right.
Qed.

Lemma split_plain (c : ascii) (s : string) :
  Py.contains c s = false -> Py.split c s = [s].
Proof.
  induction s as [|a s IH]; cbn; [reflexivity|].
  intros H. apply orb_false_iff in H as [Ha Hs]. rewrite Ha, (IH Hs). reflexivity.
Qed.

Lemma split_app_separator (c : ascii) (f s : string) :
  Py.contains c f = false ->
  Py.split c (f +:+ String c s) = f :: Py.split c s.
Proof.
  induction f as [|a f IH]; rewrite ?app_cons, ?app_nil; cbn.
  - intros _. now rewrite Ascii.eqb_refl.
  - intros H. apply orb_false_iff in H as [Ha Hf]. rewrite Ha, (IH Hf). reflexivity.
Qed.

Lemma split_join (requested : ascii) (row : list string) :
  row <> [] ->
  (forall cell, cell ∈ row -> Py.contains requested cell = false) ->
  Py.split requested (CsvWriter.join requested row) = row.
Proof.
  induction row as [|f row IH]; intros Hne Hall; [congruence|].
  destruct row as [|f' row].
  - cbn. apply split_plain, Hall. left.
  - cbn [CsvWriter.join] in *. rewrite split_app_separator by (apply Hall; left).
    f_equal. apply IH; [discriminate|]. intros c Hc. apply Hall. now right.
Qed.

Lemma join_empty_string (requested : ascii) (row : list string) :
  CsvWriter.join requested row = EmptyString -> row = [] \/ row = [EmptyString].
Proof.
  destruct row as [|f [|f' row]]; cbn; [auto | intros ->; auto |].
  destruct f; rewrite ?app_cons, ?app_nil; discriminate.
Qed.

Lemma writerow_plain (requested : ascii) (row : list string) :
  (forall cell, cell ∈ row -> CsvWriter.needs_quotes requested cell = false) ->
  row <> [EmptyString] ->
  CsvWriter.writerow requested row
    = CsvWriter.join requested row +:+ CsvWriter.lineterminator.
Proof.
  intros Hall Hne. unfold CsvWriter.writerow.
  rewrite map_write_field_plain by assumption.
  destruct row as [|cell row]; [reflexivity|].
  destruct (CsvWriter.join requested (cell :: row)) eqn:E; [|reflexivity].
  apply join_empty_string in E as [E|E]; [discriminate | contradiction].
Qed.

(** *** The delimiter a classification reports *)

Lemma detect_csv_total (lines : list string) (guess : Guess.t) :
  exists g,
    detect_csv lines guess = Returns g /\
    (g = guess \/
     Guess.is_potential_csv g = true /\ Guess.best_delimiter g ∈ potential_delimiters).
Proof.
  destruct lines as [|first rest]; [exists guess; split; [reflexivity | now left]|].
  unfold detect_csv.
  destruct (existsb (fun d => Py.contains d first) potential_delimiters);
    [|exists guess; split; [reflexivity | now left]].
  destruct (max_key_candidates (fun d => Py.count d first)) as (d & Hmax & Hin & _).
  rewrite Hmax. cbn [mbind outcome_bind].
  destruct (0 <? _); [|exists guess; split; [reflexivity | now left]].
  destruct (Float64.int_ge _ _); [|exists guess; split; [reflexivity | now left]].
  eexists. split; [reflexivity|]. right. split; [reflexivity | exact Hin].
Qed.

Lemma classify_potential_delimiter (file_path : string) (file_size : Z)
    (encoding : option string) (is_large_file : bool) (line_count : nat)
    (lines : list string) (r : TxtReport.t) :
  classify file_path file_size encoding is_large_file line_count lines = Returns r ->
  TxtReport.potential_csv r = true ->
  exists d, TxtReport.potential_delimiter r = Some d /\ d ∈ potential_delimiters.
Proof.
  destruct lines as [|first rest].
  - intros H. exfalso. revert H. unfold classify.
    destruct (max_key_candidates (fun d => Py.sum (map (Py.count d) []))) as (best & -> & _).
    cbn [mbind outcome_bind detect_csv mret outcome_ret map Py.max_list]. discriminate.
  - intros Hr Hp.
    destruct (classify_returns file_path file_size encoding is_large_file line_count first rest)
      as (best & Hclass).
    destruct (detect_csv_total (first :: rest) (Guess.mk false best (Float64.mk 0 0)))
      as (g & Hg & Hcases).
    destruct (Hclass g Hg) as (r' & Hr' & Hp' & Hd' & _).
    rewrite Hr in Hr'. injection Hr' as <-.
    rewrite Hp in Hp'. rewrite Hd', <- Hp'.
    destruct Hcases as [->|[_ Hin]]; [discriminate Hp'|].
    eauto.
Qed.

Lemma text_ext_not_tabular (ext : string) : text_ext ext = true -> tabular_ext ext = false.
Proof.
  unfold text_ext, tabular_ext. intros H. apply orb_true_iff in H as [H|H];
    apply String.eqb_eq in H; subst ext; reflexivity.
Qed.

Lemma plain_cell_needs_no_quotes (requested : ascii) (cell : string) :
  plain_cell requested cell -> CsvWriter.needs_quotes requested cell = false.
Proof.
  unfold plain_cell. induction cell as [|c cell IH]; [reflexivity|].
  cbn [every CsvWriter.needs_quotes]. intros [(Hd & Hq & Hcr & Hlf) Hrest].
  rewrite (IH Hrest), orb_false_r. unfold CsvWriter.special, CsvWriter.quotechar.
  apply Ascii.eqb_neq in Hd, Hq.
  assert (Hcr' : Ascii.eqb "013"%char c = false) by (apply Ascii.eqb_neq; congruence).
  assert (Hlf' : Ascii.eqb "010"%char c = false) by (apply Ascii.eqb_neq; congruence).
  rewrite Hd, Hq. unfold CsvWriter.lineterminator. cbn [Py.contains orb].
  now rewrite Hcr', Hlf'.
Qed.

Lemma join_concat (requested : ascii) (row : list string) :
  CsvWriter.join requested row = String.concat (String requested EmptyString) row.
Proof.
  induction row as [|f [|f' row] IH]; [reflexivity | reflexivity|].
  change (CsvWriter.join requested (f :: f' :: row))
    with (f +:+ String requested (CsvWriter.join requested (f' :: row))).
  change (String.concat (String requested EmptyString) (f :: f' :: row))
    with (f +:+ (String requested EmptyString +:+
                 String.concat (String requested EmptyString) (f' :: row))).
  now rewrite IH, app_cons, app_nil.
Qed.

Lemma concat_empty_cons (x : string) (l : list string) :
  String.concat EmptyString (x :: l) = x +:+ String.concat EmptyString l.
Proof.
  destruct l as [|y l]; cbn [String.concat].
  - now rewrite append_empty_string.
  - now rewrite app_nil.
Qed.

Lemma writerows_concat (requested : ascii) (rows : list (list string)) :
  CsvWriter.writerows requested rows
    = String.concat EmptyString (map (CsvWriter.writerow requested) rows).
Proof.
  induction rows as [|row rows IH]; [reflexivity|].
  cbn [map]. rewrite concat_empty_cons, <- IH. reflexivity.
Qed.

Lemma writerows_separated (requested : ascii) (rows : list (list string)) :
  (forall row cell, row ∈ rows -> cell ∈ row -> plain_cell requested cell) ->
  [EmptyString] ∉ rows ->
  CsvWriter.writerows requested rows = separated_text requested rows.
Proof.
  unfold separated_text. rewrite writerows_concat.
  induction rows as [|row rows IH]; intros Hplain Hne; [reflexivity|].
  cbn [map]. rewrite !concat_empty_cons. f_equal.
  - rewrite writerow_plain, join_concat; [reflexivity| |].
    + intros cell Hcell. apply plain_cell_needs_no_quotes.
      apply (Hplain row); [left|exact Hcell].
    + intros ->. apply Hne. left.
  - apply IH.
    + intros r c Hr. apply Hplain. now right.
    + intros H. apply Hne. now right.
Qed.

Lemma write_table_writerows (requested : ascii) (rows : list (list string)) :
  write_table requested rows = CsvWriter.writerows requested rows.
Proof. destruct rows; reflexivity. Qed.

Lemma plain_cell_free (requested : ascii) (cell : string) :
  plain_cell requested cell -> Py.contains requested cell = false.
Proof. intros H. now apply needs_quotes_contains, plain_cell_needs_no_quotes. Qed.

Lemma promote_row_not_nil (d : ascii) (lines : list string) :
  [] ∉ (promote d lines).1.
Proof.
  rewrite promote_eq. cbn [fst]. intros Hrow.
  apply list_elem_of_fmap in Hrow as (cells & Hnil & Hcells).
  apply list_elem_of_fmap in Hcells as (line & -> & _).
  symmetry in Hnil. apply app_eq_nil in Hnil as [Hnil _].
  unfold line_cells in Hnil. destruct (Py.contains d line); [|discriminate].
  now apply split_not_nil in Hnil.
Qed.

Section TransformFacts.

Variable chardet_detect : string -> option string.
Variable open_text : option string -> string -> decoding.
Variable csv_reader : option string -> string -> ascii -> record_stream.
Variable open_output : string -> option exn.
Variable encode : string -> string -> option exn.

Lemma verify_txt_potential_delimiter (input : file) (results : TxtReport.t) :
  verify_txt chardet_detect open_text input = Returns (Some results) ->
  TxtReport.potential_csv results = true ->
  exists d, TxtReport.potential_delimiter results = Some d /\ d ∈ potential_delimiters.
Proof.
  unfold verify_txt. destruct (negb (present input)); [discriminate|].
  destruct (read_all _) as [text|e]; [|discriminate].
  cbn [mbind outcome_bind].
  destruct (classify _ _ _ _ _ _) as [r|e] eqn:E; [|discriminate].
  cbn [mbind outcome_bind mret outcome_ret]. intros H. injection H as <-.
  eapply classify_potential_delimiter; eauto.
Qed.

(** C10.  When plain text classified potential CSV is promoted, the lines
    are split on the delimiter the classifier detected and the table is
    written with the delimiter the caller asked for.  The call raises
    what opening the output raises, else what encoding the text raises,
    and otherwise leaves in the output file the writer's rendering, under
    the requested delimiter, of the rows obtained by splitting on the
    detected one.  That text is one record for every row, in order.  When
    no cell holds the requested delimiter, a quote, a carriage return or
    a line feed, it is exactly the cells of every row with the requested
    delimiter between them, every row followed by carriage return and
    line feed, and splitting a record on the requested delimiter gives
    the cells back.  No cell holds the detected delimiter, and when the
    two delimiters differ the detected one occurs nowhere in the output.
    Lines [a;b,c] and [d], split on the comma and written with the
    semicolon, give the records ["a;b";c] and [d;]. *)
Theorem promotion_writes_requested_delimiter
    (input : file) (file_ext output_ext target_encoding : string) (requested : ascii)
    (text : string) (results : TxtReport.t) :
  present input = true ->
  text_ext file_ext = true ->
  tabular_ext output_ext = true ->
  open_text (detect_encoding chardet_detect input) (raw_data input) = Decoded text ->
  verify_txt chardet_detect open_text input = Returns (Some results) ->
  TxtReport.potential_csv results = true ->
  exists detected,
    TxtReport.potential_delimiter results = Some detected /\
    detected ∈ potential_delimiters /\
    let lines := Py.readlines text in
    let csv_rows := (promote detected lines).1 in
    let out := write_table requested csv_rows in
    let run :=
      transform_file chardet_detect open_text csv_reader open_output encode
        input file_ext output_ext target_encoding (String requested EmptyString) in
    (forall e, open_output target_encoding = Some e -> run = Raises e) /\
    (forall e, open_output target_encoding = None ->
               encode target_encoding out = Some e -> run = Raises e) /\
    (open_output target_encoding = None -> encode target_encoding out = None ->
     run = Returns (Some (mk_written target_encoding out))) /\
    csv_rows = map (pad_row (promote detected lines).2) (map (line_cells detected) lines) /\
    length csv_rows = length lines /\
    out = String.concat EmptyString (map (CsvWriter.writerow requested) csv_rows) /\
    ((forall row cell, row ∈ csv_rows -> cell ∈ row -> plain_cell requested cell) ->
     [EmptyString] ∉ csv_rows ->
     out = separated_text requested csv_rows /\
     forall row, row ∈ csv_rows ->
       Py.split requested (String.concat (String requested EmptyString) row) = row) /\
    (forall row cell, row ∈ csv_rows -> cell ∈ row -> Py.contains detected cell = false) /\
    (detected <> requested -> Py.contains detected out = false) /\
    write_table ";"%char
      (promote ","%char ["a;b,c" +:+ String "010"%char EmptyString;
                         "d" +:+ String "010"%char EmptyString]).1
      = String "034"%char
          ("a;b" +:+
           String "034"%char
             (";c" +:+ String "013"%char (String "010"%char
                ("d;" +:+ String "013"%char (String "010"%char EmptyString))))).
Proof.
  intros Hpresent Htext Htab Hopen Hverify Hpot.
  destruct (verify_txt_potential_delimiter input results Hverify Hpot) as (detected & Hd & Hin).
  exists detected. split; [exact Hd|]. split; [exact Hin|]. cbn zeta.
  set (lines := Py.readlines text).
  assert (Hfree : forall row cell, row ∈ (promote detected lines).1 -> cell ∈ row ->
                                   Py.contains detected cell = false)
    by apply promote_cells_free.
  assert (Hrun :
    transform_file chardet_detect open_text csv_reader open_output encode
      input file_ext output_ext target_encoding (String requested EmptyString)
    = (_ ← check (open_output target_encoding);
       write_text encode target_encoding (write_table requested (promote detected lines).1))).
  { unfold transform_file.
    rewrite Hpresent, (text_ext_not_tabular _ Htext), Htext, Htab, Hopen, Hverify.
    cbn [negb read_all mbind outcome_bind mret outcome_ret]. rewrite Hpot, Hd. fold lines.
    destruct (promote detected lines) as [csv_rows max_columns]. cbn [fst].
    destruct (check (open_output target_encoding)); reflexivity. }
  split.
  { intros e He. rewrite Hrun, He. reflexivity. }
  split.
  { intros e Ho He. rewrite Hrun, Ho. unfold write_text. cbn [check mbind outcome_bind mret outcome_ret].
    rewrite He. reflexivity. }
  split.
  { intros Ho He. rewrite Hrun, Ho. unfold write_text. cbn [check mbind outcome_bind mret outcome_ret].
    rewrite He. reflexivity. }
  split.
  { rewrite promote_eq. cbn [fst snd]. apply map_ext. intros cells.
    unfold pad_row. now rewrite append_empty_replicate. }
  split.
  { rewrite promote_eq. cbn [fst]. now rewrite !length_map. }
  split.
  { rewrite write_table_writerows. apply writerows_concat. }
  split.
  { intros Hplain Hne. split.
    - rewrite write_table_writerows. now apply writerows_separated.
    - intros row Hrow. rewrite <- join_concat. apply split_join.
      + intros ->. now apply (promote_row_not_nil detected lines).
      + intros cell Hcell. apply plain_cell_free. now apply (Hplain row). }
  split; [exact Hfree|].
  split; [intros Hne; now apply write_table_free|].
  vm_compute. reflexivity.
Qed.

End TransformFacts.

Lemma promotion_writes_requested_delimiter_witness :
  let nl := String "010"%char EmptyString in
  let crlf := String "013"%char nl in
  let input := mk_file "in.txt" true ("a,b,c" +:+ nl +:+ "d,e" +:+ nl) in
  let chardet_detect := fun _ : string => Some "ascii" in
  let open_text := fun (_ : option string) (raw : string) => Decoded raw in
  let csv_reader := fun (_ : option string) (_ : string) (_ : ascii) => mk_stream [] None in
  let open_output := fun _ : string => @None exn in
  let encode := fun _ _ : string => @None exn in
  transform_file chardet_detect open_text csv_reader open_output encode
    input ".txt" ".csv" "utf-8" ";"
  = Returns (Some (mk_written "utf-8" ("a;b;c" +:+ crlf +:+ "d;e;" +:+ crlf))).
Proof.
  intros nl crlf input chardet_detect open_text csv_reader open_output encode.
  assert (Hv : exists results,
             verify_txt chardet_detect open_text input = Returns (Some results) /\
             TxtReport.potential_csv results = true /\
             TxtReport.potential_delimiter results = Some ","%char).
  { eexists. split; [vm_compute; reflexivity|]. split; reflexivity. }
  destruct Hv as (results & Hv & Hp & Hd).
  destruct (promotion_writes_requested_delimiter chardet_detect open_text csv_reader
              open_output encode input
              ".txt" ".csv" "utf-8" ";"%char (raw_data input) results
              eq_refl eq_refl eq_refl eq_refl Hv Hp)
    as (detected & Hd' & _ & _ & _ & Ht & _).
  rewrite Hd in Hd'. injection Hd' as <-.
  rewrite (Ht eq_refl eq_refl). vm_compute. reflexivity.
Defined.

(** * Further properties *)

(** ** Resolving the delimiter *)

Lemma resolve_delimiter_shape (sample delimiter : string) :
  exists resolved,
    resolve_delimiter sample delimiter = Returns resolved /\
    (Py.contains_str delimiter sample = true -> resolved = delimiter) /\
    ((forall d, d ∈ potential_delimiters -> Py.count d sample = 0) -> resolved = delimiter) /\
    (Py.contains_str delimiter sample = false ->
     (exists d, d ∈ potential_delimiters /\ 0 < Py.count d sample) ->
     exists best,
       resolved = String best EmptyString /\
       best ∈ potential_delimiters /\
       0 < Py.count best sample /\
       forall d, d ∈ potential_delimiters -> Py.count d sample <= Py.count best sample).
Proof.
  unfold resolve_delimiter.
  destruct (max_key_candidates (fun d => Py.count d sample))
    as (best & Hmax & Hin & Hget & Hmost & _).
  destruct (Py.contains_str delimiter sample) eqn:Hc; cbn [negb].
  - exists delimiter. split; [reflexivity|]. split; [reflexivity|].
    split; [reflexivity | discriminate].
  - rewrite Hmax. cbn [mbind outcome_bind]. rewrite Hget.
    destruct (Nat.ltb_spec 0 (Py.count best sample)) as [Hpos|Hzero].
    + exists (String best EmptyString). split; [reflexivity|].
      split; [discriminate|]. split.
      * intros Hnone. specialize (Hnone best Hin). lia.
      * intros _ _. exists best. auto.
    + exists delimiter. split; [reflexivity|]. split; [reflexivity|].
      split; [reflexivity|].
      intros _ (d & Hd & Hdpos). specialize (Hmost d Hd). lia.
Qed.

(** The delimiter [verify_csv] parses with.  Resolution never fails.  The
    requested delimiter is kept when the sample contains it, and when the
    sample contains no candidate at all; otherwise it is replaced by the
    candidate most frequent in the sample. *)
Theorem resolve_delimiter_cases (sample delimiter : string) :
  exists resolved,
    resolve_delimiter sample delimiter = Returns resolved /\
    (Py.contains_str delimiter sample = true -> resolved = delimiter) /\
    ((forall d, d ∈ potential_delimiters -> Py.count d sample = 0) -> resolved = delimiter) /\
    (Py.contains_str delimiter sample = false ->
     (exists d, d ∈ potential_delimiters /\ 0 < Py.count d sample) ->
     exists best,
       resolved = String best EmptyString /\
       best ∈ potential_delimiters /\
       0 < Py.count best sample /\
       forall d, d ∈ potential_delimiters -> Py.count d sample <= Py.count best sample).
Proof. apply resolve_delimiter_shape. Qed.

(** ** Re-splitting *)

Lemma split_length (c : ascii) (s : string) :
  length (Py.split c s) = Py.count c s + 1.
Proof.
  induction s as [|a s IH]; cbn; [reflexivity|].
  destruct (Ascii.eqb a c); cbn; [now rewrite IH|].
  destruct (Py.split c s) eqn:E; cbn in *; lia.
Qed.

Lemma concat_cons_head (sep : string) (a : ascii) (x : string) (l : list string) :
  String.concat sep (String a x :: l) = String a (String.concat sep (x :: l)).
Proof. destruct l; cbn [String.concat]; [reflexivity | now rewrite app_cons]. Qed.

Lemma concat_split (c : ascii) (s : string) :
  String.concat (String c EmptyString) (Py.split c s) = s.
Proof.
  induction s as [|a s IH]; [reflexivity|].
  cbn [Py.split]. destruct (Ascii.eqb a c) eqn:E.
  - apply Ascii.eqb_eq in E as ->.
    destruct (Py.split c s) as [|cell cells] eqn:Es; [now apply split_not_nil in Es|].
    cbn [String.concat] in *. now rewrite app_nil, app_cons, app_nil, IH.
  - destruct (Py.split c s) as [|cell cells] eqn:Es; [now apply split_not_nil in Es|].
    now rewrite concat_cons_head, IH.
Qed.

(** Lines 80-92.  A record of one cell that contains the delimiter is
    replaced by the cells the delimiter separates in it: as many cells as
    the delimiter occurs in the cell, plus one, none of which contains the
    delimiter, and which give the cell back when joined by the delimiter.
    Every other record, that is a record of no cell, of several cells, or
    of one cell without the delimiter, is left as it is.  A one-cell row
    of the verified table therefore never contains the delimiter, and
    re-splitting a second time changes nothing. *)
Theorem resplit_idempotent (delimiter : ascii) (row : list string) :
  (forall cell, row = [cell] -> Py.contains delimiter cell = true ->
     resplit delimiter row = Py.split delimiter cell /\
     (forall c, c ∈ resplit delimiter row -> Py.contains delimiter c = false) /\
     String.concat (String delimiter EmptyString) (resplit delimiter row) = cell) /\
  (forall cell, row = [cell] -> length (resplit delimiter row) = Py.count delimiter cell + 1) /\
  ((forall cell, row = [cell] -> Py.contains delimiter cell = false) ->
   resplit delimiter row = row) /\
  (forall cell, resplit delimiter row = [cell] -> Py.contains delimiter cell = false) /\
  resplit delimiter (resplit delimiter row) = resplit delimiter row.
Proof.
  assert (Hone : forall cell, resplit delimiter row = [cell] -> Py.contains delimiter cell = false).
  { intros cell. destruct row as [|c [|c' row]]; cbn; try discriminate.
    destruct (Py.contains delimiter c) eqn:E.
    - intros H. pose proof (split_length delimiter c) as Hl. rewrite H in Hl.
      apply contains_iff_count in E. cbn in Hl. lia.
    - intros H. injection H as <-. exact E. }
  split; [|split; [|split; [|split; [exact Hone|]]]].
  - intros cell -> Hc. unfold resplit. rewrite Hc. split; [reflexivity|].
    split; [|apply concat_split].
    intros c Hin. now apply (split_cells_free delimiter cell c).
  - intros cell ->. cbn. destruct (Py.contains delimiter cell) eqn:E.
    + apply split_length.
    + destruct (Py.count delimiter cell) eqn:Ec; [reflexivity|].
      assert (Py.contains delimiter cell = true) by (apply contains_iff_count; lia). congruence.
  - destruct row as [|c [|c' row]]; cbn; intros H; try reflexivity.
    now rewrite (H c eq_refl).
  - destruct (resplit delimiter row) as [|c [|c' r]] eqn:E; try reflexivity.
    cbn. now rewrite (Hone c eq_refl).
Qed.

(** ** Consistency and the header *)

(** Consistency compares the rows with one another, never with the header:
    a table all of whose rows have the same number of cells is reported
    consistent whatever the number of header names is. *)
Theorem consistent_columns_ignores_header_count
    (file_path : string) (file_size : Z) (encoding : option string) (delimiter : ascii)
    (first : list string) (rest : list (list string)) (n : nat) :
  single_content_header (resplit delimiter first) = false ->
  rest <> [] ->
  (forall row, row ∈ map (resplit delimiter) rest -> length row = n) ->
  exists r,
    verify_parsed file_path file_size encoding delimiter (first :: rest) = Returns r /\
    CsvReport.header_count r = length (resplit delimiter first) /\
    CsvReport.consistent_columns r = true.
Proof.
  intros Hhdr Hne Hall.
  destruct (verify_parsed_returns file_path file_size encoding delimiter first rest)
    as (r & Hr & _ & Hn & _ & Hc & _).
  exists r. split; [exact Hr|]. split; [exact Hn|].
  rewrite Hc. unfold columns_consistent. rewrite Hhdr.
  apply bool_decide_eq_true, distinct_lengths_one. split.
  - destruct rest; [congruence | discriminate].
  - intros r1 r2 H1 H2. now rewrite (Hall r1 H1), (Hall r2 H2).
Qed.

Lemma consistent_columns_ignores_header_count_witness :
  exists r,
    verify_parsed "t.csv" 20 (Some "ascii") ","%char
      [["a"; "b"; "c"]; ["1"; "2"]; ["3"; "4"]] = Returns r /\
    CsvReport.header_count r = 3 /\
    CsvReport.consistent_columns r = true.
Proof.
  apply (consistent_columns_ignores_header_count "t.csv" 20 (Some "ascii") ","%char
           ["a"; "b"; "c"] [["1"; "2"]; ["3"; "4"]] 2).
  - reflexivity.
  - discriminate.
  - intros row Hrow. apply list_elem_of_In in Hrow. cbn in Hrow.
    destruct Hrow as [<-|[<-|[]]]; reflexivity.
Defined.

(** ** Blank cells *)


Lemma lstrip_head (s : string) (a : ascii) (t : string) :
  Py.lstrip s = String a t -> Py.isspace a = false.
Proof.
  induction s as [|b s IH]; cbn; [discriminate|].
  destruct (Py.isspace b) eqn:Eb; [exact IH|].
  intros H. injection H as <- <-. exact Eb.
Qed.

Lemma rstrip_empty_iff (s : string) :
  Py.rstrip s = EmptyString <-> forall c, Py.contains c s = true -> Py.isspace c = true.
Proof.
  induction s as [|a s IH]; cbn.
  - split; [discriminate | reflexivity].
  - destruct (Py.rstrip s) as [|b r] eqn:Er.
    + destruct (Py.isspace a) eqn:Ea.
      * split; [|reflexivity]. intros _ c Hc.
        apply orb_true_iff in Hc as [Hc|Hc].
        -- apply Ascii.eqb_eq in Hc. now subst.
        -- now apply IH.
      * split; [discriminate|]. intros H. specialize (H a).
        rewrite Ascii.eqb_refl in H. specialize (H eq_refl). congruence.
    + split; [discriminate|]. intros H.
      assert (String b r = EmptyString); [|discriminate].
      apply IH. intros c Hc. apply H. rewrite Hc. apply orb_true_r.
Qed.

Lemma rstrip_head (s : string) (a : ascii) (t : string) :
  s = String a t -> Py.isspace a = false -> exists t', Py.rstrip s = String a t'.
Proof.
  intros -> Ha. cbn. destruct (Py.rstrip t); [rewrite Ha|]; eauto.
Qed.







(** ** The type tags *)

Lemma dict_of_lookup_elem (pairs : list (string * string)) (k v : string) :
  dict_of pairs !! k = Some v -> (k, v) ∈ pairs.
Proof.
  induction pairs as [|[k' v'] pairs IH] using rev_ind; [discriminate|].
  rewrite dict_of_snoc. destruct (decide (k' = k)) as [->|Hne].
  - rewrite lookup_insert_eq. intros H. injection H as <-.
    apply elem_of_app. right. left.
  - rewrite lookup_insert_ne by assumption. intros H.
    apply elem_of_app. left. now apply IH.
Qed.

Lemma column_data_type_tag (rows : list (list string)) (i : nat) :
  column_data_type rows i = "numeric" \/ column_data_type rows i = "string".
Proof. unfold column_data_type. destruct (Float64.int_gt _ _); auto. Qed.

(** The report gives a type to every header name and to nothing else, and
    every type is ["numeric"] or ["string"]. *)
Theorem column_data_types_total
    (file_path : string) (file_size : Z) (encoding : option string) (delimiter : ascii)
    (first : list string) (rest : list (list string)) :
  exists r,
    verify_parsed file_path file_size encoding delimiter (first :: rest) = Returns r /\
    (forall name,
        is_Some (CsvReport.column_data_types r !! name) <-> name ∈ CsvReport.headers r) /\
    (forall name tag,
        CsvReport.column_data_types r !! name = Some tag ->
        tag = "numeric" \/ tag = "string").
Proof.
  destruct (verify_parsed_returns file_path file_size encoding delimiter first rest)
    as (r & Hr & Hh & _ & _ & _ & _ & Ht).
  exists r. split; [exact Hr|]. rewrite Ht, Hh. split.
  - intros name. rewrite <- elem_of_dom, dict_of_dom, column_types_fst.
    apply elem_of_list_to_set.
  - intros name tag Hl. apply dict_of_lookup_elem in Hl.
    apply list_elem_of_lookup in Hl as [i Hi].
    apply lookup_zip_Some in Hi as [_ Hi].
    change (map ?f ?l) with (f <$> l) in Hi. rewrite list_lookup_fmap in Hi.
    destruct (seq 0 (length (resplit delimiter first)) !! i) as [j|]; [|discriminate].
    cbn in Hi. injection Hi as <-. apply column_data_type_tag.
Qed.

(** ** What counts as a number *)

Lemma isdigit_replace_chars (s : string) (c : ascii) :
  Py.all_digits (Py.replace_first_dot s) = true ->
  Py.contains c s = true ->
  Py.isdigit_char c = true \/ c = "."%char.
Proof.
  induction s as [|a s IH]; cbn; [discriminate|].
  destruct (Ascii.eqb_spec a "."%char) as [->|Hna].
  - intros Hd Hc. apply orb_true_iff in Hc as [Hc|Hc].
    + apply Ascii.eqb_eq in Hc. now right.
    + left. clear IH. induction s as [|b s IH]; cbn in *; [discriminate|].
      apply andb_true_iff in Hd as [Hb Hs].
      apply orb_true_iff in Hc as [Hc|Hc]; [|now apply IH].
      apply Ascii.eqb_eq in Hc. now subst.
  - cbn. intros Hd Hc. apply andb_true_iff in Hd as [Ha Hs].
    apply orb_true_iff in Hc as [Hc|Hc]; [|now apply IH].
    apply Ascii.eqb_eq in Hc. subst. now left.
Qed.

(** A value counted as numeric is, once trimmed, not empty and made of
    digits and points only: a sign, an exponent, a thousands separator, a
    currency symbol or inner white space makes the value a string. *)
Theorem numeric_value_digits_and_point_only (val : string) :
  looks_numeric val = true ->
  Py.strip val <> EmptyString /\
  forall c, Py.contains c (Py.strip val) = true -> Py.isdigit_char c = true \/ c = "."%char.
Proof.
  unfold looks_numeric, Py.isdigit. intros H. apply andb_true_iff in H as [Hne Hd].
  split.
  - intros E. rewrite E in Hne. discriminate.
  - intros c Hc. eapply isdigit_replace_chars; eauto.
Qed.

Lemma numeric_value_digits_and_point_only_witness :
  looks_numeric " 12.50 " = true /\ Py.strip " 12.50 " <> EmptyString.
Proof.
  split; [reflexivity|].
  exact (proj1 (numeric_value_digits_and_point_only " 12.50 " eq_refl)).
Defined.

(** ** The outcomes of [verify_csv] *)

Lemma classic_candidates (sample : string) :
  (forall d, d ∈ potential_delimiters -> Py.count d sample = 0) \/
  (exists d, d ∈ potential_delimiters /\ 0 < Py.count d sample).
Proof.
  destruct (existsb (fun d => Py.contains d sample) potential_delimiters) eqn:E.
  - right. now apply candidate_present_iff.
  - left. intros d Hd.
    destruct (Py.count d sample) eqn:Ec; [reflexivity|].
    assert (existsb (fun d => Py.contains d sample) potential_delimiters = true); [|congruence].
    apply candidate_present_iff. exists d. split; [exact Hd | lia].
Qed.

Lemma contains_str_one (c : ascii) (s : string) :
  Py.contains c s = true -> Py.contains_str (String c EmptyString) s = true.
Proof.
  induction s as [|a s IH]; cbn [Py.contains Py.contains_str String.prefix]; [discriminate|].
  intros H. destruct (ascii_dec c a) as [->|Hne].
  - now destruct s.
  - cbn [orb]. apply IH. apply orb_true_iff in H as [H|H]; [|exact H].
    apply Ascii.eqb_eq in H. congruence.
Qed.

Section VerifyCsvOutcomes.

Variable chardet_detect : string -> option string.
Variable open_text : option string -> string -> decoding.
Variable csv_reader : option string -> string -> ascii -> record_stream.

Lemma verify_csv_sampled (f : file) (delimiter sample : string) :
  present f = true ->
  read_sample (open_text (chardet_detect (raw_data f)) (raw_data f)) = Returns sample ->
  exists resolved,
    resolve_delimiter sample delimiter = Returns resolved /\
    verify_csv chardet_detect open_text csv_reader f delimiter =
      (d ← one_character resolved;
       reader ← read_records (csv_reader (chardet_detect (raw_data f)) (raw_data f) d);
       results ← verify_parsed (path f) (getsize f) (chardet_detect (raw_data f)) d reader;
       mret (Some results)).
Proof.
  intros Hp Hs.
  destruct (resolve_delimiter_shape sample delimiter) as (resolved & Hres & _).
  exists resolved. split; [exact Hres|].
  unfold verify_csv, detect_encoding. rewrite Hp. cbn [negb]. rewrite Hs.
  cbn [mbind outcome_bind]. rewrite Hres. reflexivity.
Qed.

Lemma verify_csv_unreadable (f : file) (delimiter : string) (e : exn) :
  present f = true ->
  read_sample (open_text (chardet_detect (raw_data f)) (raw_data f)) = Raises e ->
  verify_csv chardet_detect open_text csv_reader f delimiter = Raises e.
Proof.
  intros Hp Hs. unfold verify_csv, detect_encoding. rewrite Hp. cbn [negb]. now rewrite Hs.
Qed.

Lemma one_character_length (delimiter : string) :
  String.length delimiter <> 1 -> one_character delimiter = Raises TypeError.
Proof. destruct delimiter as [|a [|b t]]; cbn; congruence. Qed.

(** [verify_csv] returns [None] exactly when the file is missing.  On a
    file that exists, an exception raised while the file is opened or its
    first 4096 characters are read leaves the call; otherwise the
    delimiter is resolved against those characters, and the call raises
    [TypeError] when the resolved delimiter is not one character, raises
    what the reader raises when iterated to the end, raises
    [StopIteration] when the reader yields no record, and returns a report
    in every other case.  So an exception that leaves the call is
    [TypeError], [StopIteration], or one raised by the reading.  A report
    names the file, its size and its detected encoding, and its delimiter
    is one character: the requested one, or a candidate that occurs in the
    first 4096 characters. *)
Theorem verify_csv_outcomes (f : file) (delimiter : string) :
  let encoding := detect_encoding chardet_detect f in
  let source := open_text encoding (raw_data f) in
  let run := verify_csv chardet_detect open_text csv_reader f delimiter in
  (run = Returns None <-> present f = false) /\
  (present f = true -> forall e, read_sample source = Raises e -> run = Raises e) /\
  (present f = true -> forall sample, read_sample source = Returns sample ->
   exists resolved,
     resolve_delimiter sample delimiter = Returns resolved /\
     (String.length resolved <> 1 -> run = Raises TypeError) /\
     (forall d, resolved = String d EmptyString ->
        let stream := csv_reader encoding (raw_data f) d in
        (forall e, ending stream = Some e -> run = Raises e) /\
        (ending stream = None -> records stream = [] -> run = Raises StopIteration) /\
        (ending stream = None -> records stream <> [] -> exists r, run = Returns (Some r)))) /\
  (forall e, run = Raises e ->
     e = TypeError \/ e = StopIteration \/ read_sample source = Raises e \/
     exists d, ending (csv_reader encoding (raw_data f) d) = Some e) /\
  (forall r, run = Returns (Some r) ->
     CsvReport.file_path r = path f /\
     CsvReport.file_size_bytes r = getsize f /\
     CsvReport.encoding r = encoding /\
     exists sample d,
       read_sample source = Returns sample /\
       CsvReport.delimiter r = String d EmptyString /\
       ending (csv_reader encoding (raw_data f) d) = None /\
       (CsvReport.delimiter r = delimiter \/
        d ∈ potential_delimiters /\ Py.contains d sample = true)).
Proof.
  intros encoding source run. unfold detect_encoding in encoding.
  destruct (present f) eqn:Hp.
  2:{ subst run. unfold verify_csv. rewrite Hp. cbn.
      split; [split; reflexivity|]. repeat split; discriminate. }
  destruct (read_sample source) as [sample|e0] eqn:Hs.
  2:{ subst run. rewrite (verify_csv_unreadable f delimiter e0 Hp Hs).
      split; [split; discriminate|].
      split; [intros _ e H; injection H as <-; reflexivity|].
      split; [intros _ sample; discriminate|].
      split; [intros e H; injection H as <-; auto | discriminate]. }
  destruct (verify_csv_sampled f delimiter sample Hp Hs) as (resolved & Hres & Hrun).
  fold run in Hrun. fold encoding in Hrun.
  destruct (resolve_delimiter_shape sample delimiter)
    as (resolved' & Hres' & Hkeep & Hnone & Hbest).
  rewrite Hres in Hres'. injection Hres' as <-.
  assert (Hlong : String.length resolved <> 1 -> run = Raises TypeError).
  { intros Hl. rewrite Hrun, (one_character_length _ Hl). reflexivity. }
  assert (Hshort : forall d, resolved = String d EmptyString ->
            run = (reader ← read_records (csv_reader encoding (raw_data f) d);
                   results ← verify_parsed (path f) (getsize f) encoding d reader;
                   mret (Some results))).
  { intros d ->. exact Hrun. }
  assert (Hstream : forall d, resolved = String d EmptyString ->
            (forall e, ending (csv_reader encoding (raw_data f) d) = Some e -> run = Raises e) /\
            (ending (csv_reader encoding (raw_data f) d) = None ->
             records (csv_reader encoding (raw_data f) d) = [] -> run = Raises StopIteration) /\
            (ending (csv_reader encoding (raw_data f) d) = None ->
             records (csv_reader encoding (raw_data f) d) <> [] ->
             exists r, run = Returns (Some r) /\
                       CsvReport.file_path r = path f /\
                       CsvReport.file_size_bytes r = getsize f /\
                       CsvReport.encoding r = encoding /\
                       CsvReport.delimiter r = String d EmptyString)).
  { intros d Hd. rewrite (Hshort d Hd). unfold read_records.
    destruct (ending (csv_reader encoding (raw_data f) d)) as [e|].
    - split; [intros e' H; injection H as <-; reflexivity|]. split; discriminate.
    - split; [discriminate|]. cbn [mbind outcome_bind mret outcome_ret].
      destruct (records (csv_reader encoding (raw_data f) d)) as [|first rest].
      + split; [reflexivity | congruence].
      + split; [discriminate|]. intros _ _. eexists. split; [reflexivity|].
        repeat split; reflexivity. }
  assert (Hcases : String.length resolved <> 1 \/ exists d, resolved = String d EmptyString).
  { destruct resolved as [|d [|d' t]]; cbn; [left; lia | right; eauto | left; lia]. }
  split; [split; [|discriminate]|].
  { intros Hnone'. exfalso. destruct Hcases as [Hl|[d Hd]].
    - rewrite (Hlong Hl) in Hnone'. discriminate.
    - destruct (Hstream d Hd) as (He & Hempty & Hsome). rewrite Hnone' in *.
      destruct (ending (csv_reader encoding (raw_data f) d)) as [e|].
      + specialize (He e eq_refl). discriminate.
      + destruct (records (csv_reader encoding (raw_data f) d)) as [|first rest].
        * specialize (Hempty eq_refl eq_refl). discriminate.
        * destruct (Hsome eq_refl ltac:(discriminate)) as (r & Hr & _). discriminate. }
  split; [intros _ e; discriminate|].
  split.
  { intros _ sample' Hs'. injection Hs' as <-. exists resolved. split; [exact Hres|].
    split; [exact Hlong|]. intros d Hd. cbn zeta.
    destruct (Hstream d Hd) as (He & Hempty & Hsome).
    split; [exact He|]. split; [exact Hempty|].
    intros Hn Hr. destruct (Hsome Hn Hr) as (r & Hrr & _). eauto. }
  split.
  { intros e He. destruct Hcases as [Hl|[d Hd]].
    - rewrite (Hlong Hl) in He. injection He as <-. auto.
    - destruct (Hstream d Hd) as (Hend & Hempty & Hsome).
      destruct (ending (csv_reader encoding (raw_data f) d)) as [e'|] eqn:Ee.
      + rewrite (Hend e' eq_refl) in He. injection He as <-. right. right. right. eauto.
      + destruct (records (csv_reader encoding (raw_data f) d)) as [|first rest].
        * rewrite (Hempty eq_refl eq_refl) in He. injection He as <-. auto.
        * destruct (Hsome eq_refl ltac:(discriminate)) as (r & Hr & _).
          rewrite Hr in He. discriminate. }
  intros r Hr. destruct Hcases as [Hl|[d Hd]].
  { rewrite (Hlong Hl) in Hr. discriminate. }
  destruct (Hstream d Hd) as (Hend & Hempty & Hsome).
  destruct (ending (csv_reader encoding (raw_data f) d)) as [e'|] eqn:Ee.
  { rewrite (Hend e' eq_refl) in Hr. discriminate. }
  destruct (records (csv_reader encoding (raw_data f) d)) as [|first rest].
  { rewrite (Hempty eq_refl eq_refl) in Hr. discriminate. }
  destruct (Hsome eq_refl ltac:(discriminate)) as (r' & Hr' & Hpath & Hsize & Henc & Hdel).
  rewrite Hr in Hr'. injection Hr' as <-.
  split; [exact Hpath|]. split; [exact Hsize|]. split; [exact Henc|].
  exists sample, d. split; [reflexivity|]. split; [exact Hdel|]. split; [exact Ee|].
  rewrite Hdel, <- Hd.
  destruct (Py.contains_str delimiter sample) eqn:Ec.
  - left. exact (Hkeep eq_refl).
  - destruct (classic_candidates sample) as [Hn|Hsome'].
    + left. exact (Hnone Hn).
    + right. destruct (Hbest eq_refl Hsome') as (best & Hb & Hin & Hpos & _).
      rewrite Hb in Hd. injection Hd as <-. split; [exact Hin|]. now apply contains_iff_count.
Qed.

(** A requested delimiter that is not one character, on a file that
    exists.  An exception raised while the first 4096 characters are read
    leaves the call before the delimiter is looked at.  Otherwise the call
    raises [TypeError] when those characters contain the requested
    delimiter (the empty string always is contained) or contain no
    candidate; in the remaining case the delimiter is replaced by a most
    frequent candidate and the call goes on as it does for that candidate,
    so that it raises [TypeError] only when the reader does. *)
Theorem verify_csv_long_delimiter (f : file) (delimiter : string) :
  present f = true ->
  String.length delimiter <> 1 ->
  let encoding := detect_encoding chardet_detect f in
  let source := open_text encoding (raw_data f) in
  let run := verify_csv chardet_detect open_text csv_reader f delimiter in
  (forall e, read_sample source = Raises e -> run = Raises e) /\
  (forall sample, read_sample source = Returns sample ->
     Py.contains_str EmptyString sample = true /\
     (Py.contains_str delimiter sample = true \/
      (forall d, d ∈ potential_delimiters -> Py.count d sample = 0) ->
      run = Raises TypeError) /\
     (Py.contains_str delimiter sample = false ->
      (exists d, d ∈ potential_delimiters /\ 0 < Py.count d sample) ->
      exists best,
        best ∈ potential_delimiters /\
        0 < Py.count best sample /\
        (forall d, d ∈ potential_delimiters -> Py.count d sample <= Py.count best sample) /\
        run = verify_csv chardet_detect open_text csv_reader f (String best EmptyString) /\
        run = (reader ← read_records (csv_reader encoding (raw_data f) best);
               results ← verify_parsed (path f) (getsize f) encoding best reader;
               mret (Some results)) /\
        (run = Raises TypeError ->
         ending (csv_reader encoding (raw_data f) best) = Some TypeError))).
Proof.
  intros Hp Hlen encoding source run. unfold detect_encoding in encoding.
  split; [intros e He; now apply verify_csv_unreadable|].
  intros sample Hs.
  split; [destruct sample; reflexivity|].
  destruct (verify_csv_sampled f delimiter sample Hp Hs) as (resolved & Hres & Hrun).
  fold run in Hrun. fold encoding in Hrun.
  destruct (resolve_delimiter_shape sample delimiter) as (res' & Hres' & Hkeep & Hnone & Hbest).
  rewrite Hres in Hres'. injection Hres' as <-.
  split.
  - intros [Hc|Hn].
    + rewrite Hrun, (Hkeep Hc), (one_character_length _ Hlen). reflexivity.
    + rewrite Hrun, (Hnone Hn), (one_character_length _ Hlen). reflexivity.
  - intros Hc Hsome. destruct (Hbest Hc Hsome) as (best & Hb & Hin & Hpos & Hmost).
    exists best. split; [exact Hin|]. split; [exact Hpos|]. split; [exact Hmost|].
    subst resolved. cbn [one_character mbind outcome_bind mret outcome_ret] in Hrun.
    assert (Hsame : verify_csv chardet_detect open_text csv_reader f (String best EmptyString)
                    = run).
    { destruct (verify_csv_sampled f (String best EmptyString) sample Hp Hs)
        as (resolved & Hres2 & Hrun2).
      destruct (resolve_delimiter_shape sample (String best EmptyString))
        as (res' & Hres' & Hkeep' & _).
      rewrite Hres2 in Hres'. injection Hres' as <-.
      assert (Hin' : Py.contains_str (String best EmptyString) sample = true).
      { apply contains_str_one. now apply contains_iff_count. }
      rewrite (Hkeep' Hin') in Hrun2. rewrite Hrun2, Hrun. reflexivity. }
    split; [now rewrite Hsame|]. split; [exact Hrun|].
    rewrite Hrun. unfold read_records.
    destruct (ending (csv_reader encoding (raw_data f) best)) as [e|].
    + intros H. injection H as ->. reflexivity.
    + cbn [mbind outcome_bind mret outcome_ret].
      destruct (records (csv_reader encoding (raw_data f) best)); discriminate.
Qed.

End VerifyCsvOutcomes.

Lemma verify_csv_long_delimiter_witness :
  verify_csv (fun _ => Some "ascii") (fun _ raw => Decoded raw)
    (fun _ _ _ => mk_stream [["a"; "b"]] None)
    (mk_file "t.csv" true "a,b") EmptyString = Raises TypeError.
Proof.
  destruct (verify_csv_long_delimiter (fun _ => Some "ascii") (fun _ raw => Decoded raw)
              (fun _ _ _ => mk_stream [["a"; "b"]] None) (mk_file "t.csv" true "a,b")
              EmptyString eq_refl ltac:(discriminate)) as [_ Hsample].
  destruct (Hsample "a,b" eq_refl) as (Hc & Hraise & _).
  apply Hraise. left. exact Hc.
Defined.

(** ** Sampling a large file *)


(** ** The outcomes of the classification *)

Lemma foldl_max_spec (x : nat) (l : list nat) :
  (forall y, y ∈ x :: l -> y <= foldl Nat.max x l) /\ foldl Nat.max x l ∈ x :: l.
Proof.
  revert x. induction l as [|a l IH]; intros x; cbn [foldl].
  - split; [|left]. intros y Hy. apply list_elem_of_singleton in Hy. lia.
  - destruct (IH (Nat.max x a)) as [Hub Hin]. split.
    + intros y Hy. apply elem_of_cons in Hy as [->|Hy].
      * specialize (Hub (Nat.max x a) ltac:(left)). lia.
      * apply elem_of_cons in Hy as [->|Hy].
        -- specialize (Hub (Nat.max x a) ltac:(left)). lia.
        -- apply Hub. now right.
    + apply elem_of_cons in Hin as [Hin|Hin].
      * rewrite Hin. destruct (Nat.max_spec x a) as [[_ ->]|[_ ->]]; [right; left | left].
      * right. now right.
Qed.

Lemma foldl_min_spec (x : nat) (l : list nat) :
  (forall y, y ∈ x :: l -> foldl Nat.min x l <= y) /\ foldl Nat.min x l ∈ x :: l.
Proof.
  revert x. induction l as [|a l IH]; intros x; cbn [foldl].
  - split; [|left]. intros y Hy. apply list_elem_of_singleton in Hy. lia.
  - destruct (IH (Nat.min x a)) as [Hlb Hin]. split.
    + intros y Hy. apply elem_of_cons in Hy as [->|Hy].
      * specialize (Hlb (Nat.min x a) ltac:(left)). lia.
      * apply elem_of_cons in Hy as [->|Hy].
        -- specialize (Hlb (Nat.min x a) ltac:(left)). lia.
        -- apply Hlb. now right.
    + apply elem_of_cons in Hin as [Hin|Hin].
      * rewrite Hin. destruct (Nat.min_spec x a) as [[_ ->]|[_ ->]]; [left | right; left].
      * right. now right.
Qed.

(** The fields of the report, for a list of lines that is not empty. *)
Lemma classify_fields (file_path : string) (file_size : Z) (encoding : option string)
    (is_large_file : bool) (line_count : nat) (first : string) (rest : list string) :
  exists r,
    classify file_path file_size encoding is_large_file line_count (first :: rest) = Returns r /\
    TxtReport.file_path r = file_path /\
    TxtReport.file_size_bytes r = file_size /\
    TxtReport.encoding r = encoding /\
    TxtReport.line_count r = line_count /\
    TxtReport.is_large_file r = is_large_file /\
    TxtReport.empty_lines r =
      length (List.filter (fun line => negb (Py.truthy (Py.strip line))) (first :: rest)) /\
    TxtReport.consistent_line_length r =
      (foldl Nat.max (String.length first) (map String.length rest)
       - foldl Nat.min (String.length first) (map String.length rest) <? 10).
Proof.
  destruct (max_key_candidates (fun d => Py.sum (map (Py.count d) (first :: rest))))
    as (best & Hbest & _).
  destruct (detect_csv_total (first :: rest) (Guess.mk false best (Float64.mk 0 0)))
    as (g & Hg & _).
  unfold classify. rewrite Hbest. cbn [mbind outcome_bind]. rewrite Hg.
  cbn [mbind outcome_bind map Py.max_list Py.min_list mret outcome_ret].
  eexists. split; [reflexivity|]. cbn. repeat split; reflexivity.
Qed.

Lemma classify_no_lines (file_path : string) (file_size : Z) (encoding : option string)
    (is_large_file : bool) (line_count : nat) :
  classify file_path file_size encoding is_large_file line_count [] = Raises ValueError.
Proof. reflexivity. Qed.

Lemma readlines_nil_iff (text : string) : Py.readlines text = [] <-> text = EmptyString.
Proof.
  split; [|intros ->; reflexivity].
  destruct text as [|a text]; [reflexivity|]. cbn.
  destruct (Ascii.eqb a "010"%char); [discriminate|].
  destruct (Py.readlines text); discriminate.
Qed.

Lemma sample_lines_nil_iff (all_lines : list string) :
  sample_lines all_lines = [] <-> all_lines = [].
Proof.
  split; [|intros ->; reflexivity].
  destruct all_lines as [|first rest]; [reflexivity|].
  unfold sample_lines. change (take 100 (first :: rest)) with (first :: take 99 rest).
  rewrite <- app_comm_cons. discriminate.
Qed.

Section VerifyTxtOutcomes.

Variable chardet_detect : string -> option string.
Variable open_text : option string -> string -> decoding.

Lemma verify_txt_read (f : file) (text : string) :
  present f = true ->
  read_all (open_text (detect_encoding chardet_detect f) (raw_data f)) = Returns text ->
  (text = EmptyString -> verify_txt chardet_detect open_text f = Raises ValueError) /\
  (text <> EmptyString ->
   exists r,
     verify_txt chardet_detect open_text f = Returns (Some r) /\
     classify (path f) (getsize f) (detect_encoding chardet_detect f)
       (large_file_threshold <? getsize f)%Z (length (Py.readlines text))
       (if (large_file_threshold <? getsize f)%Z
        then sample_lines (Py.readlines text) else Py.readlines text) = Returns r /\
     TxtReport.file_path r = path f /\
     TxtReport.file_size_bytes r = getsize f /\
     TxtReport.encoding r = detect_encoding chardet_detect f /\
     TxtReport.is_large_file r = (10 * 1024 * 1024 <? getsize f)%Z /\
     TxtReport.line_count r = length (Py.readlines text)).
Proof.
  intros Hp Hread. unfold verify_txt. rewrite Hp, Hread. cbn [negb mbind outcome_bind].
  set (lines := if (large_file_threshold <? getsize f)%Z
                then sample_lines (Py.readlines text) else Py.readlines text).
  assert (Hnil : lines = [] <-> text = EmptyString).
  { subst lines. destruct (large_file_threshold <? getsize f)%Z;
      [rewrite sample_lines_nil_iff|]; apply readlines_nil_iff. }
  destruct lines as [|first rest] eqn:El.
  - rewrite classify_no_lines. cbn [mbind outcome_bind].
    split; [reflexivity|]. intros Hne. exfalso. apply Hne. now apply Hnil.
  - split; [intros Ht; apply Hnil in Ht; discriminate|]. intros _.
    destruct (classify_fields (path f) (getsize f) (detect_encoding chardet_detect f)
                (large_file_threshold <? getsize f)%Z (length (Py.readlines text)) first rest)
      as (r & Hr & Hfp & Hsz & Henc & Hlc & Hlg & _).
    rewrite Hr. cbn [mbind outcome_bind mret outcome_ret].
    exists r. split; [reflexivity|]. auto 10.
Qed.

Lemma verify_txt_unreadable (f : file) (e : exn) :
  present f = true ->
  read_all (open_text (detect_encoding chardet_detect f) (raw_data f)) = Raises e ->
  verify_txt chardet_detect open_text f = Raises e.
Proof. intros Hp Hread. unfold verify_txt. now rewrite Hp, Hread. Qed.

(** [verify_txt] returns [None] exactly when the file is missing.  On a
    file that exists it raises in two cases only: the file cannot be
    opened or read to its end under the detected encoding, and the
    exception of the reading leaves the call; or the file holds no text,
    and the call raises [ValueError] (the longest of no lines).  In every
    other case it returns a report, which names the file, its size and
    its encoding; [is_large_file] tells whether the size exceeds 10 MiB,
    and [line_count] is the number of lines of the whole file, sampled or
    not. *)
Theorem verify_txt_outcomes (f : file) :
  let source := open_text (detect_encoding chardet_detect f) (raw_data f) in
  let run := verify_txt chardet_detect open_text f in
  (run = Returns None <-> present f = false) /\
  (forall e, run = Raises e <->
     present f = true /\
     (read_all source = Raises e \/
      read_all source = Returns EmptyString /\ e = ValueError)) /\
  (present f = true ->
   forall text, read_all source = Returns text -> text <> EmptyString ->
   exists r,
     run = Returns (Some r) /\
     TxtReport.file_path r = path f /\
     TxtReport.file_size_bytes r = getsize f /\
     TxtReport.encoding r = detect_encoding chardet_detect f /\
     TxtReport.is_large_file r = (10 * 1024 * 1024 <? getsize f)%Z /\
     TxtReport.line_count r = length (Py.readlines text)).
Proof.
  intros source run.
  destruct (present f) eqn:Hp.
  2:{ subst run. unfold verify_txt. rewrite Hp. cbn [negb].
      split; [split; reflexivity|]. split; [|discriminate].
      intros e. split; [discriminate | intros [H _]; discriminate]. }
  destruct (read_all source) as [text|e0] eqn:Hread.
  - destruct (verify_txt_read f text Hp Hread) as [Hempty Hfull]. fold run in Hempty, Hfull.
    destruct (string_dec text EmptyString) as [->|Hne].
    + rewrite (Hempty eq_refl).
      split; [split; discriminate|]. split.
      * intros e. split.
        -- intros H. injection H as <-. auto.
        -- intros [_ [H|[_ ->]]]; [discriminate | reflexivity].
      * intros _ text H. injection H as <-. contradiction.
    + destruct (Hfull Hne) as (r & Hr & _ & Hfields). rewrite Hr.
      split; [split; discriminate|]. split.
      * intros e. split; [discriminate|].
        intros [_ [H|[H _]]]; [discriminate | injection H as ->; contradiction].
      * intros _ text' H _. injection H as <-. exists r. split; [reflexivity | exact Hfields].
  - subst run. rewrite (verify_txt_unreadable f e0 Hp Hread).
    split; [split; discriminate|]. split.
    + intros e. split.
      * intros H. injection H as <-. auto.
      * intros [_ [H|[H _]]]; [injection H as <-; reflexivity | discriminate].
    + intros _ text H. discriminate.
Qed.

End VerifyTxtOutcomes.

(** ** Invariants of the classification *)

Lemma truediv_at_most_one (a b : Z) :
  (0 <= a <= b)%Z -> (0 < b)%Z ->
  (0 <= Float64.mant (Float64.truediv a b))%Z /\
  Float64.int_ge 1 (Float64.truediv a b) = true.
Proof.
  intros Ha Hb.
  destruct (Z.eq_dec a 0%Z) as [->|Hne]; [split; reflexivity|].
  destruct (Float64Facts.truediv_nearest a b ltac:(lia) Hb)
    as (k & s & Hk & Hs & He & Hm & Herr).
  set (x := Float64.truediv a b) in *.
  change (2 ^ 52)%Z with 4503599627370496%Z in Hm.
  change (2 ^ 53)%Z with 9007199254740992%Z in Hm.
  split; [lia|].
  assert (HT : (0 < 2 ^ s)%Z) by (apply Z.pow_pos_nonneg; lia).
  assert (HK : (0 < 2 ^ (k + 1))%Z) by (apply Z.pow_pos_nonneg; lia).
  assert (Hbound : (2 * Float64.mant x * 2 ^ s <= 2 * 2 ^ (k + 1) + 2 ^ s)%Z).
  { assert (Hab : (a * 2 ^ (k + 1) <= b * 2 ^ (k + 1))%Z)
      by (apply Z.mul_le_mono_nonneg_r; lia).
    assert (Hlin : (2 * (Float64.mant x * 2 ^ s * b) <= 2 * (a * 2 ^ (k + 1)) + 2 ^ s * b)%Z)
      by lia.
    assert (H : ((2 * Float64.mant x * 2 ^ s) * b <= (2 * 2 ^ (k + 1) + 2 ^ s) * b)%Z) by lia.
    apply Z.mul_le_mono_pos_r in H; assumption. }
  assert (Hsk : (s <= k)%Z).
  { destruct (Z_le_gt_dec s k) as [|Hgt]; [assumption|]. exfalso.
    assert (2 ^ (k + 1) <= 2 ^ s)%Z by (apply Z.pow_le_mono_r; lia). nia. }
  unfold Float64.int_ge. rewrite He.
  destruct (Z.leb_spec 0%Z (s - k - 1)%Z) as [|_]; [lia|].
  apply Z.leb_le.
  replace (- (s - k - 1))%Z with (k + 1 - s)%Z by lia.
  assert (Hsplit : (2 ^ (k + 1) = 2 ^ (k + 1 - s) * 2 ^ s)%Z).
  { rewrite <- Z.pow_add_r by lia. f_equal. lia. }
  assert (0 < 2 ^ (k + 1 - s))%Z by (apply Z.pow_pos_nonneg; lia).
  nia.
Qed.

Lemma detect_csv_shape (first : string) (rest : list string) (guess : Guess.t) :
  exists g,
    detect_csv (first :: rest) guess = Returns g /\
    (g = guess \/
     exists d,
       d ∈ potential_delimiters /\ 0 < Py.count d first /\
       g = Guess.mk true d
             (Float64.truediv
                (Z.of_nat (length (List.filter (line_matches d (Py.count d first)) rest)))
                (Z.of_nat (Nat.max 1 (length rest))))).
Proof.
  unfold detect_csv.
  destruct (existsb (fun d => Py.contains d first) potential_delimiters);
    [|exists guess; split; [reflexivity | now left]].
  destruct (max_key_candidates (fun d => Py.count d first)) as (d & Hmax & Hin & Hget & _).
  rewrite Hmax. cbn [mbind outcome_bind]. rewrite Hget.
  destruct (Nat.ltb_spec 0 (Py.count d first)); [|exists guess; split; [reflexivity | now left]].
  destruct (Float64.int_ge _ _); [|exists guess; split; [reflexivity | now left]].
  eexists. split; [reflexivity|]. right. exists d.
  replace (length (first :: rest) - 1) with (length rest) by (cbn [length]; lia).
  auto.
Qed.

(** Whatever the lines are, a report that is returned keeps these
    invariants.  Not potential CSV: no delimiter and confidence 0.
    Potential CSV: the delimiter is one of the four candidates and occurs
    in the first line.  In both cases the confidence lies between 0 and 1. *)
Theorem classification_invariants (file_path : string) (file_size : Z)
    (encoding : option string) (is_large_file : bool) (line_count : nat)
    (lines : list string) (r : TxtReport.t) :
  classify file_path file_size encoding is_large_file line_count lines = Returns r ->
  (TxtReport.potential_csv r = false ->
   TxtReport.potential_delimiter r = None /\ TxtReport.csv_confidence r = Float64.mk 0 0) /\
  (TxtReport.potential_csv r = true ->
   exists d first rest,
     lines = first :: rest /\ TxtReport.potential_delimiter r = Some d /\
     d ∈ potential_delimiters /\ Py.contains d first = true) /\
  (0 <= Float64.mant (TxtReport.csv_confidence r))%Z /\
  Float64.int_ge 1 (TxtReport.csv_confidence r) = true.
Proof.
  destruct lines as [|first rest]; [discriminate|].
  intros Hr.
  destruct (classify_returns file_path file_size encoding is_large_file line_count first rest)
    as (best & Hclass).
  destruct (detect_csv_shape first rest (Guess.mk false best (Float64.mk 0 0)))
    as (g & Hg & Hshape).
  destruct (Hclass g Hg) as (r' & Hr' & Hp & Hd & Hc & _).
  rewrite Hr in Hr'. injection Hr' as <-.
  rewrite Hp, Hd, Hc.
  destruct Hshape as [->|(d & Hin & Hpos & ->)];
    cbn [Guess.is_potential_csv Guess.best_delimiter Guess.csv_confidence].
  - split; [intros _; split; reflexivity|]. split; [discriminate|]. split; reflexivity.
  - split; [discriminate|]. split.
    + intros _. exists d, first, rest. split; [reflexivity|]. split; [reflexivity|].
      split; [exact Hin | now apply contains_iff_count].
    + pose proof (filter_length_le (line_matches d (Py.count d first)) rest).
      apply truediv_at_most_one; lia.
Qed.

Lemma classification_invariants_witness :
  exists r,
    classify "notes.txt" 12 (Some "ascii") false 3 ["a;b"; "c;d"; "e"] = Returns r /\
    Float64.int_ge 1 (TxtReport.csv_confidence r) = true.
Proof.
  assert (H : exists r, classify "notes.txt" 12 (Some "ascii") false 3 ["a;b"; "c;d"; "e"]
                        = Returns r) by (eexists; vm_compute; reflexivity).
  destruct H as [r Hr]. exists r. split; [exact Hr|].
  exact (proj2 (proj2 (proj2 (classification_invariants _ _ _ _ _ _ r Hr)))).
Defined.

(** A file of one line that contains a candidate delimiter is always
    classified potential CSV, with that line's most frequent candidate and
    confidence 0: there is no later line to disagree. *)
Theorem single_line_is_potential_csv (file_path : string) (file_size : Z)
    (encoding : option string) (is_large_file : bool) (line_count : nat) (first : string) :
  existsb (fun d => Py.contains d first) potential_delimiters = true ->
  exists r d,
    classify file_path file_size encoding is_large_file line_count [first] = Returns r /\
    TxtReport.potential_csv r = true /\
    TxtReport.potential_delimiter r = Some d /\
    Py.max_key (map (fun d => (d, Py.count d first)) potential_delimiters) = Returns d /\
    TxtReport.csv_confidence r = Float64.mk 0 0.
Proof.
  intros Hany.
  destruct (max_key_candidates (fun d => Py.count d first)) as (d & Hmax & Hin & Hget & Hmost & _).
  assert (Hpos : 0 < Py.count d first).
  { apply candidate_present_iff in Hany as (d' & Hd' & Hc). specialize (Hmost d' Hd'). lia. }
  destruct (classify_returns file_path file_size encoding is_large_file line_count first [])
    as (best & Hclass).
  destruct (Hclass _ (detect_csv_header first [] _ d Hany Hmax Hget Hpos eq_refl))
    as (r & Hr & Hp & Hd & Hc & _).
  exists r, d. split; [exact Hr|]. rewrite Hp, Hd, Hc. repeat split; try reflexivity.
  exact Hmax.
Qed.

Lemma single_line_is_potential_csv_witness :
  exists r,
    classify "notes.txt" 24 (Some "ascii") false 1 ["Dear Sir, thank you."] = Returns r /\
    TxtReport.potential_csv r = true.
Proof.
  destruct (single_line_is_potential_csv "notes.txt" 24 (Some "ascii") false 1
              "Dear Sir, thank you." eq_refl) as (r & d & Hr & Hp & _).
  exists r. split; [exact Hr | exact Hp].
Defined.

(** ** Line statistics *)

(** [consistent_line_length] holds exactly when any two inspected lines
    differ in length by less than 10 characters, line terminators
    included. *)
Theorem consistent_line_length_iff (file_path : string) (file_size : Z)
    (encoding : option string) (is_large_file : bool) (line_count : nat)
    (first : string) (rest : list string) :
  exists r,
    classify file_path file_size encoding is_large_file line_count (first :: rest) = Returns r /\
    (TxtReport.consistent_line_length r = true <->
     forall l1 l2, l1 ∈ first :: rest -> l2 ∈ first :: rest ->
                   String.length l1 < String.length l2 + 10).
Proof.
  destruct (classify_fields file_path file_size encoding is_large_file line_count first rest)
    as (r & Hr & _ & _ & _ & _ & _ & _ & Hc).
  exists r. split; [exact Hr|]. rewrite Hc.
  destruct (foldl_max_spec (String.length first) (map String.length rest)) as [Hub Hmax].
  destruct (foldl_min_spec (String.length first) (map String.length rest)) as [Hlb Hmin].
  set (longest := foldl Nat.max _ _) in *. set (shortest := foldl Nat.min _ _) in *.
  assert (Hlen : forall l, l ∈ first :: rest ->
                   String.length l ∈ String.length first :: map String.length rest).
  { intros l Hl. change (String.length l ∈ map String.length (first :: rest)).
    apply list_elem_of_fmap. eauto. }
  rewrite Nat.ltb_lt. split.
  - intros H l1 l2 H1 H2.
    specialize (Hub _ (Hlen l1 H1)). specialize (Hlb _ (Hlen l2 H2)). lia.
  - intros H.
    change (longest ∈ map String.length (first :: rest)) in Hmax.
    change (shortest ∈ map String.length (first :: rest)) in Hmin.
    apply list_elem_of_fmap in Hmax as (l1 & -> & H1).
    apply list_elem_of_fmap in Hmin as (l2 & E2 & H2).
    specialize (H l1 l2 H1 H2). lia.
Qed.


(** ** The outcomes of [transform_file] *)

Lemma classify_raises (file_path : string) (file_size : Z) (encoding : option string)
    (is_large_file : bool) (line_count : nat) (lines : list string) (e : exn) :
  classify file_path file_size encoding is_large_file line_count lines = Raises e ->
  lines = [] /\ e = ValueError.
Proof.
  destruct lines as [|first rest].
  - rewrite classify_no_lines. intros H. injection H as <-. auto.
  - destruct (classify_fields file_path file_size encoding is_large_file line_count first rest)
      as (r & Hr & _).
    rewrite Hr. discriminate.
Qed.

Section TransformOutcomes.

Variable chardet_detect : string -> option string.
Variable open_text : option string -> string -> decoding.
Variable csv_reader : option string -> string -> ascii -> record_stream.
Variable open_output : string -> option exn.
Variable encode : string -> string -> option exn.

Lemma one_character_cases (delimiter : string) :
  (exists d, delimiter = String d EmptyString /\ one_character delimiter = Returns d) \/
  (String.length delimiter <> 1 /\ one_character delimiter = Raises TypeError).
Proof.
  destruct delimiter as [|d [|d' t]]; cbn; [right; auto | left; eauto | right; auto].
Qed.

Lemma write_text_cases (target_encoding text : string) :
  (exists e, encode target_encoding text = Some e /\
             write_text encode target_encoding text = Raises e) \/
  (encode target_encoding text = None /\
   write_text encode target_encoding text
     = Returns (Some (mk_written target_encoding text))).
Proof.
  unfold write_text. destruct (encode target_encoding text) as [e|]; cbn; eauto.
Qed.

(** What the text branch does once the file is read and classified: the
    output is opened, the writer is built for the delimiter, and a table
    is written that depends on the classification only. *)
Lemma transform_text_to_table_cases
    (input : file) (file_ext output_ext target_encoding delimiter text : string) :
  present input = true ->
  text_ext file_ext = true ->
  tabular_ext output_ext = true ->
  read_all (open_text (detect_encoding chardet_detect input) (raw_data input)) = Returns text ->
  let result :=
    transform_file chardet_detect open_text csv_reader open_output encode
      input file_ext output_ext target_encoding delimiter in
  (text = EmptyString -> result = Raises ValueError) /\
  (text <> EmptyString ->
   exists table : ascii -> string,
     ((forall d, table d = write_single_column d (Py.readlines text)) \/
      (exists detected, detected ∈ potential_delimiters /\
         forall d, table d = write_table d (promote detected (Py.readlines text)).1)) /\
     result = (_ ← check (open_output target_encoding);
               d ← one_character delimiter;
               write_text encode target_encoding (table d))).
Proof.
  intros Hp Htext Htab Hread result. subst result. unfold transform_file.
  rewrite Hp, (text_ext_not_tabular _ Htext), Htext, Htab, Hread.
  cbn [negb mbind outcome_bind].
  destruct (verify_txt_read chardet_detect open_text input text Hp Hread) as [Hempty Hfull].
  split.
  - intros Ht. now rewrite (Hempty Ht).
  - intros Hne. destruct (Hfull Hne) as (r & Hv & _). rewrite Hv. cbn [mbind outcome_bind].
    destruct (TxtReport.potential_csv r) eqn:Hpot.
    + destruct (verify_txt_potential_delimiter chardet_detect open_text input r Hv Hpot)
        as (d0 & -> & Hin).
      exists (fun d => write_table d (promote d0 (Py.readlines text)).1).
      split; [right; exists d0; split; [exact Hin | reflexivity]|].
      destruct (promote d0 (Py.readlines text)) as [csv_rows max_columns]. reflexivity.
    + exists (fun d => write_single_column d (Py.readlines text)).
      split; [left; reflexivity | reflexivity].
Qed.

(** A text file that exists, by the kind of the output.  An exception
    raised while the file is opened or read leaves the call.  Otherwise,
    to a text file the content is copied: the content is not inspected
    and the delimiter is not used, so neither an empty file nor a
    delimiter such as ["auto"] makes the conversion fail; the call raises
    what opening the output raises, else what encoding the content
    raises, and else leaves the content, unchanged, in the output.  To a
    table: a file without text raises [ValueError] before the output is
    opened, whatever the delimiter; otherwise the call raises what
    opening the output raises, else [TypeError] for a delimiter that is
    not one character, else what encoding the table raises, and else
    leaves the table in the output, so that promotion of a text that is
    not empty never fails for want of structure.  The table is the
    single-column table of the lines, or the lines split on a candidate
    delimiter. *)
Theorem transform_text_outcomes
    (input : file) (file_ext output_ext target_encoding delimiter : string) :
  present input = true ->
  text_ext file_ext = true ->
  let source := open_text (detect_encoding chardet_detect input) (raw_data input) in
  let result :=
    transform_file chardet_detect open_text csv_reader open_output encode
      input file_ext output_ext target_encoding delimiter in
  (forall e, read_all source = Raises e -> result = Raises e) /\
  (forall text, read_all source = Returns text ->
     (tabular_ext output_ext = false ->
      (forall e, open_output target_encoding = Some e -> result = Raises e) /\
      (forall e, open_output target_encoding = None ->
                 encode target_encoding text = Some e -> result = Raises e) /\
      (open_output target_encoding = None -> encode target_encoding text = None ->
       result = Returns (Some (mk_written target_encoding text)))) /\
     (tabular_ext output_ext = true ->
      (text = EmptyString -> result = Raises ValueError) /\
      (text <> EmptyString ->
       (forall e, open_output target_encoding = Some e -> result = Raises e) /\
       (open_output target_encoding = None -> String.length delimiter <> 1 ->
        result = Raises TypeError) /\
       (forall d, open_output target_encoding = None -> delimiter = String d EmptyString ->
          exists table,
            (table = write_single_column d (Py.readlines text) \/
             exists detected, detected ∈ potential_delimiters /\
               table = write_table d (promote detected (Py.readlines text)).1) /\
            (forall e, encode target_encoding table = Some e -> result = Raises e) /\
            (encode target_encoding table = None ->
             result = Returns (Some (mk_written target_encoding table))))))).
Proof.
  intros Hp Htext source result. split.
  { intros e He. subst result. unfold transform_file.
    fold source. now rewrite Hp, (text_ext_not_tabular _ Htext), Htext, He. }
  intros text Hread. split.
  - intros Htab.
    assert (Hrun : result = (_ ← check (open_output target_encoding);
                             write_text encode target_encoding text)).
    { subst result. unfold transform_file. fold source.
      now rewrite Hp, (text_ext_not_tabular _ Htext), Htext, Hread, Htab. }
    rewrite Hrun. split; [|split].
    + intros e ->. reflexivity.
    + intros e -> He. unfold write_text. now rewrite He.
    + intros -> He. unfold write_text. now rewrite He.
  - intros Htab.
    destruct (transform_text_to_table_cases input file_ext output_ext target_encoding
                delimiter text Hp Htext Htab Hread) as [Hempty Hfull].
    fold result in Hempty, Hfull.
    split; [exact Hempty|]. intros Hne.
    destruct (Hfull Hne) as (table & Htable & Hrun). rewrite Hrun.
    split; [|split].
    + intros e ->. reflexivity.
    + intros -> Hlen. cbn [check mbind outcome_bind mret outcome_ret].
      destruct (one_character_cases delimiter) as [(d & -> & _)|[_ ->]]; [|reflexivity].
      now contradiction Hlen.
    + intros d -> ->. cbn [check one_character mbind outcome_bind mret outcome_ret].
      exists (table d). split.
      * destruct Htable as [Hsingle|(detected & Hin & Hsplit)]; [left; apply Hsingle|].
        right. exists detected. split; [exact Hin | apply Hsplit].
      * unfold write_text. split.
        -- intros e ->. reflexivity.
        -- intros ->. reflexivity.
Qed.

(** [transform_file] writes nothing and returns normally in exactly two
    cases: the input is missing, or its extension is neither tabular nor
    plain text.  In every other case it writes the output or raises. *)
Theorem transform_file_writes_nothing_iff
    (input : file) (file_ext output_ext target_encoding delimiter : string) :
  transform_file chardet_detect open_text csv_reader open_output encode
    input file_ext output_ext target_encoding delimiter = Returns None
  <-> present input = false \/ (tabular_ext file_ext = false /\ text_ext file_ext = false).
Proof.
  assert (Hwrite : forall text,
            write_text encode target_encoding text <> Returns None).
  { intros text. destruct (write_text_cases target_encoding text) as [(e & _ & ->)|[_ ->]];
      discriminate. }
  assert (Hopen : forall text,
            (_ ← check (open_output target_encoding);
             write_text encode target_encoding text) <> Returns None).
  { intros text. destruct (open_output target_encoding); [discriminate | apply Hwrite]. }
  destruct (present input) eqn:Hp.
  2:{ unfold transform_file. rewrite Hp. cbn [negb]. split; auto. }
  destruct (tabular_ext file_ext) eqn:Htab.
  - split; [|intros [H|[H _]]; discriminate].
    intros H. exfalso. revert H.
    unfold transform_file. rewrite Hp, Htab. cbn [negb].
    destruct (open_for_reading _); [|discriminate]. cbn [mbind outcome_bind].
    assert (Hrest : forall delimiter',
      (d ← one_character delimiter';
       reader ← read_records
                  (csv_reader (detect_encoding chardet_detect input) (raw_data input) d);
       match reader with
       | [] => Raises StopIteration
       | headers :: rows =>
           _ ← check (open_output target_encoding);
           write_text encode target_encoding
             (CsvWriter.writerow d headers +:+ CsvWriter.writerows d rows)
       end) <> Returns None).
    { intros delimiter'. destruct (one_character delimiter') as [d|e]; [|discriminate].
      cbn [mbind outcome_bind].
      destruct (read_records _) as [[|headers rows]|e]; try discriminate.
      cbn [mbind outcome_bind]. apply Hopen. }
    destruct (String.eqb delimiter "auto").
    + destruct (read_sample _) as [sample|e]; [|discriminate]. cbn [mbind outcome_bind].
      destruct (Py.max_key _) as [best|e]; [|discriminate].
      cbn [mbind outcome_bind mret outcome_ret]. apply Hrest.
    + cbn [mbind outcome_bind mret outcome_ret]. apply Hrest.
  - destruct (text_ext file_ext) eqn:Htext.
    2:{ unfold transform_file. rewrite Hp, Htab, Htext. cbn [negb]. split; auto. }
    split; [|intros [H|[_ H]]; discriminate].
    intros H. exfalso. revert H.
    destruct (read_all (open_text (detect_encoding chardet_detect input) (raw_data input)))
      as [text|e] eqn:Hread.
    2:{ unfold transform_file. rewrite Hp, Htab, Htext, Hread. discriminate. }
    destruct (tabular_ext output_ext) eqn:Hout.
    2:{ unfold transform_file. rewrite Hp, Htab, Htext, Hread, Hout.
        cbn [negb mbind outcome_bind]. apply Hopen. }
    destruct (transform_text_to_table_cases input file_ext output_ext target_encoding
                delimiter text Hp Htext Hout Hread) as [Hempty Hfull].
    destruct (string_dec text EmptyString) as [He|Hne].
    + rewrite (Hempty He). discriminate.
    + destruct (Hfull Hne) as (table & _ & ->).
      destruct (open_output target_encoding); [discriminate|].
      cbn [check mbind outcome_bind mret outcome_ret].
      destruct (one_character delimiter) as [d|e]; [|discriminate].
      cbn [mbind outcome_bind]. apply Hwrite.
Qed.

End TransformOutcomes.

Lemma transform_text_outcomes_witness :
  transform_file (fun _ => Some "ascii") (fun _ raw => Decoded raw)
    (fun _ _ _ => mk_stream [] None) (fun _ => None) (fun _ _ => None)
    (mk_file "notes.txt" true "a,b") ".txt" ".csv" "utf-8" "auto" = Raises TypeError.
Proof.
  destruct (transform_text_outcomes (fun _ => Some "ascii") (fun _ raw => Decoded raw)
              (fun _ _ _ => mk_stream [] None) (fun _ => None) (fun _ _ => None)
              (mk_file "notes.txt" true "a,b") ".txt" ".csv" "utf-8" "auto"
              eq_refl eq_refl) as (_ & H).
  destruct (H "a,b" eq_refl) as (_ & Htab).
  destruct (Htab eq_refl) as (_ & Hfull).
  destruct (Hfull ltac:(discriminate)) as (_ & Hlong & _).
  apply Hlong; [reflexivity | discriminate].
Defined.

(** ** Blank lines and white-space delimiters in promotion *)

Lemma line_cells_blank (d : ascii) (line : string) :
  Py.strip line = EmptyString -> line_cells d line = [EmptyString].
Proof.
  intros H. unfold line_cells. rewrite H. destruct (Py.contains d line); reflexivity.
Qed.

(** Promotion keeps blank lines: a line that holds only white space gives
    a row of [max_columns] empty cells, at the line's position. *)
Theorem promotion_keeps_blank_lines (csv_delimiter : ascii) (lines : list string)
    (i : nat) (line : string) :
  lines !! i = Some line ->
  Py.strip line = EmptyString ->
  (promote csv_delimiter lines).1 !! i
    = Some (replicate (promote csv_delimiter lines).2 EmptyString) /\
  1 <= (promote csv_delimiter lines).2.
Proof.
  intros Hi Hblank. rewrite promote_eq. cbn [fst snd].
  set (cells_of := map (line_cells csv_delimiter) lines).
  assert (Hc : cells_of !! i = Some [EmptyString]).
  { subst cells_of. change (map ?f lines) with (f <$> lines).
    rewrite list_lookup_fmap, Hi. cbn. now rewrite line_cells_blank. }
  assert (Hle : 1 <= max_list (map length cells_of)).
  { apply (max_list_elem_of_le (length [EmptyString])), list_elem_of_fmap.
    exists [EmptyString]. split; [reflexivity|]. apply list_elem_of_lookup. eauto. }
  split; [|exact Hle].
  set (M := max_list (map length cells_of)) in *.
  change (map ?f cells_of) with (f <$> cells_of). rewrite list_lookup_fmap, Hc.
  cbn [fmap option_fmap option_map length app]. f_equal.
  destruct M as [|m]; [lia|].
  replace (S m - 1) with m by lia. reflexivity.
Qed.

Lemma promotion_keeps_blank_lines_witness :
  (promote ","%char ["a,b"; " "; "c,d"]).1 !! 1 = Some [EmptyString; EmptyString].
Proof.
  exact (proj1 (promotion_keeps_blank_lines ","%char ["a,b"; " "; "c,d"] 1 " "
                  eq_refl eq_refl)).
Defined.

Lemma strip_head (s : string) (a : ascii) (t : string) :
  Py.strip s = String a t -> Py.isspace a = false.
Proof.
  unfold Py.strip. destruct (Py.lstrip s) as [|b u] eqn:E; [discriminate|].
  pose proof (lstrip_head s b u E) as Hb.
  destruct (rstrip_head _ b u eq_refl Hb) as [u' Hu]. rewrite Hu.
  intros H. injection H as <- _. exact Hb.
Qed.

(** When the detected delimiter is itself white space (the tab), the line
    is trimmed before it is split, so leading delimiters are lost: the
    first cell of a line is empty only when the whole line is blank.  The
    number of cells is the number of delimiters left after trimming, plus
    one. *)
Theorem promotion_trims_whitespace_delimiter (csv_delimiter : ascii) (line : string)
    (cell : string) (cells : list string) :
  Py.isspace csv_delimiter = true ->
  line_cells csv_delimiter line = cell :: cells ->
  (cell = EmptyString -> Py.strip line = EmptyString /\ cells = []) /\
  (Py.contains csv_delimiter line = true ->
   S (length cells) = Py.count csv_delimiter (Py.strip line) + 1).
Proof.
  intros Hsp Hcells. unfold line_cells in Hcells.
  destruct (Py.contains csv_delimiter line) eqn:Ec.
  - split.
    + intros ->. destruct (Py.strip line) as [|a t] eqn:Es.
      * cbn in Hcells. injection Hcells as <-. auto.
      * exfalso. pose proof (strip_head line a t Es) as Ha.
        cbn in Hcells.
        destruct (Ascii.eqb_spec a csv_delimiter) as [->|_]; [congruence|].
        destruct (Py.split csv_delimiter t); discriminate.
    + intros _. pose proof (split_length csv_delimiter (Py.strip line)) as Hl.
      rewrite Hcells in Hl. exact Hl.
  - injection Hcells as <- <-. split; [auto | discriminate].
Qed.

Lemma promotion_trims_whitespace_delimiter_witness :
  Py.isspace "009"%char = true /\
  S (length ["b"])
    = Py.count "009"%char (Py.strip (String "009"%char ("a" +:+ String "009"%char "b"))) + 1.
Proof.
  split; [reflexivity|].
  exact (proj2 (promotion_trims_whitespace_delimiter "009"%char
                  (String "009"%char ("a" +:+ String "009"%char "b")) "a" ["b"]
                  eq_refl eq_refl) eq_refl).
Defined.

(** ** The single-column fallback *)

(** The table written when the text is not potential CSV has the header
    [Content] and one row of one cell for every line that is not blank,
    trimmed, in order; blank lines are dropped.  Read back under a
    delimiter that does not occur in the word [Content], it verifies as a
    single-column table with consistent columns and as many rows as the
    text has lines that are not blank. *)
Theorem fallback_verifies_as_single_column
    (file_path : string) (file_size : Z) (encoding : option string) (delimiter : ascii)
    (lines : list string) :
  Py.contains delimiter "Content" = false ->
  let rows := map (fun line => [line]) (List.filter Py.truthy (map Py.strip lines)) in
  write_single_column delimiter lines
    = CsvWriter.writerow delimiter ["Content"] +:+ CsvWriter.writerows delimiter rows /\
  length rows = length (List.filter (fun line => Py.truthy (Py.strip line)) lines) /\
  exists r,
    verify_parsed file_path file_size encoding delimiter (["Content"] :: rows) = Returns r /\
    CsvReport.is_single_column_csv r = true /\
    CsvReport.consistent_columns r = true /\
    CsvReport.row_count r = length rows.
Proof.
  intros Hd rows. split; [reflexivity|]. split.
  { subst rows. rewrite length_map. clear. induction lines as [|l lines IH]; [reflexivity|].
    cbn. destruct (Py.truthy (Py.strip l)); cbn; now rewrite IH. }
  destruct (verify_parsed_returns file_path file_size encoding delimiter ["Content"] rows)
    as (r & Hr & _ & _ & Hn & Hc & Hs & _).
  exists r. split; [exact Hr|].
  assert (Hh : resplit delimiter ["Content"] = ["Content"]) by (unfold resplit; now rewrite Hd).
  rewrite Hs, Hc, Hn, Hh. split; [reflexivity|]. split; [|reflexivity].
  unfold columns_consistent. replace (single_content_header ["Content"]) with true by reflexivity.
  apply forallb_forall. intros row Hrow. apply Nat.leb_le.
  apply in_map_iff in Hrow as (row0 & <- & Hrow0).
  apply in_map_iff in Hrow0 as (line & <- & _).
  destruct (resplit delimiter [line]) eqn:E; [|cbn; lia].
  apply resplit_nil_iff in E. discriminate.
Qed.

Lemma fallback_verifies_as_single_column_witness :
  exists r,
    verify_parsed "out.csv" 30 (Some "utf-8") ","%char
      [["Content"]; ["Dear Sir, thank you."]; ["Bye"]] = Returns r /\
    CsvReport.consistent_columns r = true.
Proof.
  destruct (fallback_verifies_as_single_column "out.csv" 30 (Some "utf-8") ","%char
              [" Dear Sir, thank you. "; " "; "Bye"] eq_refl) as (_ & _ & r & Hr & _ & Hc & _).
  exists r. split; [exact Hr | exact Hc].
Defined.

(** ** Promotion, then verification *)

(** The rows written by promotion, read back as they are, verify as
    consistent: with at least two columns and at least one line after the
    header, every row has [max_columns] cells, which is also the header
    count. *)
Theorem promotion_verifies_as_consistent
    (file_path : string) (file_size : Z) (encoding : option string)
    (detected requested : ascii) (lines : list string)
    (header : list string) (data : list (list string)) :
  (promote detected lines).1 = header :: data ->
  data <> [] ->
  2 <= (promote detected lines).2 ->
  exists r,
    verify_parsed file_path file_size encoding requested (header :: data) = Returns r /\
    CsvReport.header_count r = (promote detected lines).2 /\
    CsvReport.row_count r = length lines - 1 /\
    CsvReport.is_single_column_csv r = false /\
    CsvReport.consistent_columns r = true.
Proof.
  intros Hrows Hdata Hcols.
  assert (Hlen : forall row, row ∈ header :: data -> length row = (promote detected lines).2).
  { intros row Hrow. rewrite <- Hrows in Hrow. revert Hrow.
    rewrite promote_eq. cbn [fst snd].
    set (cells_of := map (line_cells detected) lines).
    intros Hrow. apply list_elem_of_fmap in Hrow as (cells & -> & Hin).
    assert (length cells <= max_list (map length cells_of)).
    { apply max_list_elem_of_le, list_elem_of_fmap. eauto. }
    rewrite length_app, length_replicate. lia. }
  assert (Hsame : forall row, row ∈ header :: data -> resplit requested row = row).
  { intros row Hrow. specialize (Hlen row Hrow).
    destruct row as [|c [|c' row]]; cbn in *; try reflexivity. lia. }
  assert (Hmap : map (resplit requested) data = data).
  { rewrite <- (map_id data) at 2. apply map_ext_in. intros row Hrow.
    apply Hsame. right. now apply list_elem_of_In. }
  destruct (verify_parsed_returns file_path file_size encoding requested header data)
    as (r & Hr & _ & Hn & Hrc & Hc & Hs & _).
  exists r. split; [exact Hr|].
  rewrite Hn, Hrc, Hs, Hc, Hmap, (Hsame header ltac:(left)).
  assert (Hsingle : single_content_header header = false).
  { unfold single_content_header. rewrite (Hlen header ltac:(left)).
    destruct (Nat.eqb_spec (promote detected lines).2 1); [lia | reflexivity]. }
  split; [apply Hlen; left|]. split.
  { assert (length (header :: data) = length lines) as Hl.
    { rewrite <- Hrows, promote_eq. cbn [fst]. now rewrite !length_map. }
    cbn [length] in Hl. lia. }
  split; [exact Hsingle|].
  unfold columns_consistent. rewrite Hsingle.
  apply bool_decide_eq_true, distinct_lengths_one. split; [exact Hdata|].
  intros r1 r2 H1 H2. rewrite (Hlen r1), (Hlen r2) by (now right). reflexivity.
Qed.

Lemma promotion_verifies_as_consistent_witness :
  exists r,
    verify_parsed "out.csv" 16 (Some "utf-8") ";"%char
      [["a"; "b"; "c"]; ["d"; "e"; EmptyString]] = Returns r /\
    CsvReport.consistent_columns r = true.
Proof.
  destruct (promotion_verifies_as_consistent "out.csv" 16 (Some "utf-8") ","%char ";"%char
              ["a,b,c"; "d,e"] ["a"; "b"; "c"] [["d"; "e"; EmptyString]] eq_refl
              ltac:(discriminate) ltac:(apply Nat.leb_le; reflexivity))
    as (r & Hr & _ & _ & _ & Hc).
  exists r. split; [exact Hr | exact Hc].
Defined.

(** ** The tabular branch and [format_csv] *)

Lemma first_candidate_when_none (count : ascii -> nat) (best : ascii) :
  best ∈ potential_delimiters ->
  (forall i j d', potential_delimiters !! i = Some d' -> potential_delimiters !! j = Some best ->
                  i < j -> count d' < count best) ->
  (forall d, d ∈ potential_delimiters -> count d = 0) ->
  best = ","%char.
Proof.
  intros Hin Hfirst Hzero.
  apply list_elem_of_lookup in Hin as [j Hj].
  destruct j as [|j]; [cbn in Hj; now injection Hj|].
  specialize (Hfirst 0 (S j) ","%char eq_refl Hj ltac:(lia)).
  rewrite (Hzero best) in Hfirst by (apply list_elem_of_lookup; eauto). lia.
Qed.

Section TabularBranch.

Variable chardet_detect : string -> option string.
Variable open_text : option string -> string -> decoding.
Variable csv_reader : option string -> string -> ascii -> record_stream.
Variable open_output : string -> option exn.
Variable encode : string -> string -> option exn.

Lemma read_sample_opens (source : decoding) (sample : string) :
  read_sample source = Returns sample -> open_for_reading source = Returns tt.
Proof. intros H. destruct source; try reflexivity; discriminate H. Qed.

(** With the delimiter ["auto"], on a tabular file that exists.  An
    exception raised while the file is opened or its first 4096 characters
    are read leaves the call.  Otherwise the file is transformed as with
    the candidate most frequent in those characters, and as with the comma
    when no candidate occurs there: unlike [verify_csv], the detection has
    no fallback to fail on.  The call then raises what the reader raises
    when iterated to the end, raises [StopIteration] for a file without
    any record, raises what opening the output or encoding the text
    raises, and otherwise leaves in the output the records written with
    the detected candidate. *)
Theorem transform_auto_is_most_frequent_candidate
    (input : file) (file_ext output_ext target_encoding : string) :
  present input = true ->
  tabular_ext file_ext = true ->
  let encoding := detect_encoding chardet_detect input in
  let source := open_text encoding (raw_data input) in
  let run := fun delimiter =>
    transform_file chardet_detect open_text csv_reader open_output encode
      input file_ext output_ext target_encoding delimiter in
  (forall e, read_sample source = Raises e -> run "auto" = Raises e) /\
  (forall sample, read_sample source = Returns sample ->
   exists best,
     best ∈ potential_delimiters /\
     (forall d, d ∈ potential_delimiters -> Py.count d sample <= Py.count best sample) /\
     ((forall d, d ∈ potential_delimiters -> Py.count d sample = 0) -> best = ","%char) /\
     run "auto" = run (String best EmptyString) /\
     let stream := csv_reader encoding (raw_data input) best in
     (forall e, ending stream = Some e -> run "auto" = Raises e) /\
     (ending stream = None -> records stream = [] -> run "auto" = Raises StopIteration) /\
     (forall headers rows,
        ending stream = None -> records stream = headers :: rows ->
        let text := CsvWriter.writerow best headers +:+ CsvWriter.writerows best rows in
        (forall e, open_output target_encoding = Some e -> run "auto" = Raises e) /\
        (forall e, open_output target_encoding = None ->
                   encode target_encoding text = Some e -> run "auto" = Raises e) /\
        (open_output target_encoding = None -> encode target_encoding text = None ->
         run "auto" = Returns (Some (mk_written target_encoding text))))).
Proof.
  intros Hp Htab encoding source run. split.
  { intros e He. subst run. cbn beta. unfold transform_file. fold encoding. fold source.
    rewrite Hp, Htab. cbn [negb].
    replace (String.eqb "auto" "auto") with true by reflexivity.
    clear -He. destruct source as [e0|e0|sample0 e0|text0]; try discriminate He;
      cbn [read_sample open_for_reading mbind outcome_bind mret outcome_ret] in *;
      congruence. }
  intros sample Hs.
  destruct (max_key_candidates (fun d => Py.count d sample))
    as (best & Hmax & Hin & _ & Hmost & Hfirst).
  exists best. split; [exact Hin|]. split; [exact Hmost|].
  split; [now apply (first_candidate_when_none (fun d => Py.count d sample))|].
  assert (Hauto : run "auto" =
            (reader ← read_records (csv_reader encoding (raw_data input) best);
             match reader with
             | [] => Raises StopIteration
             | headers :: rows =>
                 _ ← check (open_output target_encoding);
                 write_text encode target_encoding
                   (CsvWriter.writerow best headers +:+ CsvWriter.writerows best rows)
             end)).
  { subst run. cbn beta. unfold transform_file. fold encoding. fold source.
    rewrite Hp, Htab. cbn [negb].
    replace (String.eqb "auto" "auto") with true by reflexivity.
    rewrite (read_sample_opens source sample Hs), Hs.
    cbn [mbind outcome_bind]. rewrite Hmax. reflexivity. }
  assert (Hbest : run (String best EmptyString) = run "auto").
  { rewrite Hauto. subst run. cbn beta. unfold transform_file. fold encoding. fold source.
    rewrite Hp, Htab. cbn [negb].
    assert (String.eqb (String best EmptyString) "auto" = false) as ->
      by (apply String.eqb_neq; discriminate).
    rewrite (read_sample_opens source sample Hs). reflexivity. }
  split; [now rewrite Hbest|]. cbn zeta. rewrite Hauto. unfold read_records.
  destruct (ending (csv_reader encoding (raw_data input) best)) as [e0|].
  { split; [intros e H; injection H as <-; reflexivity|]. split; [discriminate|].
    intros headers rows; discriminate. }
  cbn [mbind outcome_bind mret outcome_ret].
  split; [discriminate|]. split; [intros _ ->; reflexivity|].
  intros headers rows _ ->. unfold write_text. split; [|split].
  - intros e ->. reflexivity.
  - intros e -> ->. reflexivity.
  - intros -> ->. reflexivity.
Qed.

(** On a tabular file and with the same delimiter (other than ["auto"]),
    [format_csv] without a transformation and [transform_file] leave the
    same output or raise the same exception.  They differ on a missing
    input: [format_csv] raises [FileNotFoundError], [transform_file]
    returns without writing. *)
Theorem format_csv_agrees_with_transform_file
    (input : file) (file_ext output_ext encoding delimiter : string) :
  tabular_ext file_ext = true ->
  delimiter <> "auto" ->
  (present input = false ->
   format_csv chardet_detect open_text csv_reader open_output encode
     input encoding delimiter None
     = FileNotFoundError /\
   transform_file chardet_detect open_text csv_reader open_output encode
     input file_ext output_ext encoding delimiter = Returns None) /\
  (present input = true ->
   exists result,
     format_csv chardet_detect open_text csv_reader open_output encode
       input encoding delimiter None
       = Formatted result /\
     transform_file chardet_detect open_text csv_reader open_output encode
       input file_ext output_ext encoding delimiter = (w ← result; mret (Some w))).
Proof.
  intros Htab Hauto. unfold format_csv, transform_file. split; intros Hp; rewrite Hp; cbn [negb].
  - split; reflexivity.
  - eexists. split; [reflexivity|]. rewrite Htab.
    apply String.eqb_neq in Hauto. rewrite Hauto.
    destruct (open_for_reading _); [|reflexivity].
    cbn [mbind outcome_bind mret outcome_ret].
    destruct (one_character delimiter) as [d|e]; cbn [mbind outcome_bind]; [|reflexivity].
    destruct (read_records _) as [[|headers rows]|e]; cbn [mbind outcome_bind];
      [reflexivity| |reflexivity].
    destruct (check (open_output encoding)); cbn [mbind outcome_bind]; [|reflexivity].
    unfold write_text.
    destruct (check (encode encoding _)); reflexivity.
Qed.

End TabularBranch.

Lemma transform_auto_is_most_frequent_candidate_witness :
  exists best,
    best ∈ potential_delimiters /\
    transform_file (fun _ => Some "ascii") (fun _ raw => Decoded raw)
      (fun _ _ d => mk_stream [Py.split d "a;b"] None) (fun _ => None) (fun _ _ => None)
      (mk_file "t.csv" true "a;b") ".csv" ".csv" "utf-8" "auto"
    = transform_file (fun _ => Some "ascii") (fun _ raw => Decoded raw)
        (fun _ _ d => mk_stream [Py.split d "a;b"] None) (fun _ => None) (fun _ _ => None)
        (mk_file "t.csv" true "a;b") ".csv" ".csv" "utf-8" (String best EmptyString).
Proof.
  destruct (transform_auto_is_most_frequent_candidate (fun _ => Some "ascii")
              (fun _ raw => Decoded raw) (fun _ _ d => mk_stream [Py.split d "a;b"] None)
              (fun _ => None) (fun _ _ => None) (mk_file "t.csv" true "a;b")
              ".csv" ".csv" "utf-8" eq_refl eq_refl) as [_ H].
  destruct (H "a;b" eq_refl) as (best & Hin & _ & _ & Heq & _).
  exists best. split; [exact Hin | exact Heq].
Defined.

Lemma format_csv_agrees_with_transform_file_witness :
  format_csv (fun _ => Some "ascii") (fun _ raw => Decoded raw)
    (fun _ _ _ => mk_stream [["a"; "b"]] None) (fun _ => None) (fun _ _ => None)
    (mk_file "gone.csv" false EmptyString) "utf-8" "," None = FileNotFoundError.
Proof.
  exact (proj1 (proj1 (format_csv_agrees_with_transform_file (fun _ => Some "ascii")
                         (fun _ raw => Decoded raw) (fun _ _ _ => mk_stream [["a"; "b"]] None)
                         (fun _ => None) (fun _ _ => None)
                         (mk_file "gone.csv" false EmptyString) ".csv" ".csv" "utf-8" ","
                         eq_refl ltac:(discriminate)) eq_refl)).
Defined.

(** ** The printed assessment *)

(** A table whose header is the single [Content] column is always printed
    as consistent and assessed as correct, whatever its rows are and
    whatever [consistent_columns] and [empty_cells] say. *)
Theorem single_column_always_assessed_correct
    (file_path : string) (file_size : Z) (encoding : option string) (delimiter : ascii)
    (first : list string) (rest : list (list string)) :
  resplit delimiter first = ["Content"] ->
  exists r,
    verify_parsed file_path file_size encoding delimiter (first :: rest) = Returns r /\
    print_consistency r = [FormatSingleColumn; ColumnConsistency true] /\
    print_assessment r = [SingleColumnCorrect].
Proof.
  intros Hh.
  destruct (verify_parsed_returns file_path file_size encoding delimiter first rest)
    as (r & Hr & _ & _ & _ & _ & Hs & _).
  exists r. split; [exact Hr|].
  unfold print_consistency, print_assessment. rewrite Hs, Hh. split; reflexivity.
Qed.

Lemma single_column_always_assessed_correct_witness :
  exists r,
    verify_parsed "t.csv" 14 (Some "ascii") ","%char [["Content"]; ["x"]; []; [" "]]
      = Returns r /\
    CsvReport.consistent_columns r = false /\
    CsvReport.empty_cells r = 1 /\
    print_assessment r = [SingleColumnCorrect].
Proof.
  destruct (single_column_always_assessed_correct "t.csv" 14 (Some "ascii") ","%char
              ["Content"] [["x"]; []; [" "]] eq_refl) as (r & Hr & _ & Ha).
  exists r. split; [exact Hr|].
  cbn in Hr. injection Hr as <-. split; [reflexivity|]. split; [reflexivity | exact Ha].
Defined.


(** A table with a header and no data row is always assessed as having
    inconsistent columns, unless its header is the single [Content]
    column. *)
Theorem header_only_table_has_issues
    (file_path : string) (file_size : Z) (encoding : option string) (delimiter : ascii)
    (first : list string) :
  single_content_header (resplit delimiter first) = false ->
  exists r,
    verify_parsed file_path file_size encoding delimiter [first] = Returns r /\
    CsvReport.row_count r = 0 /\
    CsvReport.empty_cells r = 0 /\
    print_consistency r = [ColumnConsistency false] /\
    print_assessment r = [StructureHasIssues; InconsistentColumns].
Proof.
  intros Hh. eexists. split; [reflexivity|].
  unfold print_consistency, print_assessment. cbn. rewrite Hh.
  unfold columns_consistent. rewrite Hh. cbn. repeat split; reflexivity.
Qed.

Lemma header_only_table_has_issues_witness :
  exists r,
    verify_parsed "t.csv" 8 (Some "ascii") ","%char [["id"; "name"]] = Returns r /\
    print_assessment r = [StructureHasIssues; InconsistentColumns].
Proof.
  destruct (header_only_table_has_issues "t.csv" 8 (Some "ascii") ","%char ["id"; "name"]
              eq_refl) as (r & Hr & _ & _ & _ & Ha).
  exists r. split; [exact Hr | exact Ha].
Defined.
